(** * product-orders-api: the JSON document store behind [app.py]

    A shallow embedding of the Flask handlers of [app.py] and of the helpers
    they share ([ensure_db_exists], [load_db], [save_db], [index_by_id]),
    followed by the properties the specification states about them.

    Conventions of the embedding.
    - Python values that travel through JSON are the type [json]; a Python
      [dict] is an insertion-ordered association list with the usual
      get / set-in-place-or-append behaviour.
    - A handler is a function from the request and the file behind [DB_PATH]
      to the Flask outcome and the file it leaves behind.  An exception that
      no [except] clause catches ends the handler ([Crash]).
    - The file is represented by what [Path.exists], [str.strip] and
      [json.loads] make of it ([db_file]); [save_db] stores the text of
      [json.dumps data], which [json.loads] reads back as [data].
    - The record an index maps an id to is the very object held by the list
      ([index_by_id] stores references); the index is therefore a map from
      ids to list positions, and a mutation through the index is an update
      of the list at that position.
    - The calls the handlers make into the Python runtime whose result depends
      on Unicode tables or on decimal/binary conversion ([str.strip], [repr]
      of a string or a float, [float] and [int] of a string) are the fields
      of [PyRuntime]; everything else of [str], [float], [int] and truth
      testing is written out. *)

From Stdlib Require Import ZArith NArith String Ascii List Bool Lia DecimalString.
From Stdlib Require Import Floats.SpecFloat.
From stdpp Require Import base option list strings gmap.

Local Open Scope string_scope.
Local Open Scope list_scope.
Local Open Scope Z_scope.

(** ** JSON values *)

#[local] Unset Elimination Schemes.
Inductive json : Type :=
| JNull
| JBool (b : bool)
| JInt (z : Z)
| JFloat (x : spec_float)
| JStr (s : string)
| JList (l : list json)
| JDict (d : list (string * json)).
#[local] Set Elimination Schemes.

Abbreviation pydict := (list (string * json)).

(** [d.get(k)] / [k in d] / [d[k]] *)
Fixpoint dict_get (d : pydict) (k : string) : option json :=
  match d with
  | [] => None
  | (k', v) :: d' => if String.eqb k' k then Some v else dict_get d' k
  end.

(** [d[k] = v]: an existing key keeps its place, a new key goes last. *)
Fixpoint dict_set (d : pydict) (k : string) (v : json) : pydict :=
  match d with
  | [] => [(k, v)]
  | (k', v') :: d' =>
      if String.eqb k' k then (k', v) :: d' else (k', v') :: dict_set d' k v
  end.

(** [d.get(k, default)] *)
Definition dict_get_or (d : pydict) (k : string) (default : json) : json :=
  match dict_get d k with Some v => v | None => default end.

Definition dict_has (d : pydict) (k : string) : bool :=
  match dict_get d k with Some _ => true | None => false end.

(** ** Exceptions *)

Inductive exn : Type :=
| TypeError | ValueError | OverflowError | AttributeError
| JSONDecodeError | FileNotFoundError.

Inductive exc (A : Type) : Type :=
| Ok (a : A)
| Raise (e : exn).
Arguments Ok {A} a.
Arguments Raise {A} e.

#[global] Instance exc_ret : MRet exc := fun A a => Ok a.
#[global] Instance exc_bind : MBind exc := fun A B k m =>
  match m with Ok a => k a | Raise e => Raise e end.

(** ** The Python runtime *)

Class PyRuntime : Type := {
  (** [s.strip()] *)
  str_strip : string -> string;
  (** [repr(s)] for a [str] *)
  str_repr : string -> string;
  (** [repr(x)] for a [float] *)
  float_repr : spec_float -> string;
  (** [float(s)] for a [str]; [None] is [ValueError] *)
  float_of_str : string -> option spec_float;
  (** [int(s)] for a [str]; [None] is [ValueError] *)
  int_of_str : string -> option Z
}.

(** binary64 *)
Definition prec : Z := 53.
Definition emax : Z := 1024.

(** [float(n)] for an [int]: round to nearest even, [OverflowError] beyond
    the largest double. *)
Definition float_of_Z (z : Z) : exc spec_float :=
  match binary_normalize prec emax z 0 false with
  | S754_infinity _ => Raise OverflowError
  | x => Ok x
  end.

(** [int(x)] for a [float]: truncation towards zero. *)
Definition Z_of_float (x : spec_float) : exc Z :=
  match x with
  | S754_zero _ => Ok 0
  | S754_infinity _ => Raise OverflowError
  | S754_nan => Raise ValueError
  | S754_finite s m e =>
      let mag := if (0 <=? e)%Z then Z.pos m * 2 ^ e else Z.pos m / 2 ^ (- e) in
      Ok (if s then - mag else mag)
  end.

(** Truth value, as tested by [not v] and [v or w]. *)
Definition py_truthy (v : json) : bool :=
  match v with
  | JNull => false
  | JBool b => b
  | JInt z => negb (z =? 0)%Z
  | JFloat (S754_zero _) => false
  | JFloat _ => true
  | JStr s => negb (String.eqb s "")
  | JList l => match l with [] => false | _ => true end
  | JDict d => match d with [] => false | _ => true end
  end.

(** [v or w] *)
Definition py_or (v w : json) : json := if py_truthy v then v else w.

Definition str_of_Z (z : Z) : string := NilZero.string_of_int (Z.to_int z).

(** [", ".join(l)] *)
Fixpoint join_comma (l : list string) : string :=
  match l with
  | [] => ""
  | [s] => s
  | s :: rest => s +:+ ", " +:+ join_comma rest
  end.

Section Builtins.
Context `{PyRuntime}.

(** [repr(v)] *)
Fixpoint py_repr (v : json) : string :=
  match v with
  | JNull => "None"
  | JBool true => "True"
  | JBool false => "False"
  | JInt z => str_of_Z z
  | JFloat x => float_repr x
  | JStr s => str_repr s
  | JList l => "[" +:+ join_comma (map py_repr l) +:+ "]"
  | JDict d =>
      "{" +:+ join_comma (map (fun kv => str_repr (fst kv) +:+ ": " +:+ py_repr (snd kv)) d)
          +:+ "}"
  end.

(** [str(v)] *)
Definition py_str (v : json) : string :=
  match v with
  | JStr s => s
  | _ => py_repr v
  end.

(** [float(v)] *)
Definition py_float (v : json) : exc spec_float :=
  match v with
  | JBool b => float_of_Z (if b then 1 else 0)
  | JInt z => float_of_Z z
  | JFloat x => Ok x
  | JStr s => match float_of_str s with Some x => Ok x | None => Raise ValueError end
  | JNull | JList _ | JDict _ => Raise TypeError
  end.

(** [int(v)] *)
Definition py_int (v : json) : exc Z :=
  match v with
  | JBool b => Ok (if b then 1 else 0)
  | JInt z => Ok z
  | JFloat x => Z_of_float x
  | JStr s => match int_of_str s with Some z => Ok z | None => Raise ValueError end
  | JNull | JList _ | JDict _ => Raise TypeError
  end.
End Builtins.

(** ** The persisted file *)

(** The file behind [DB_PATH], as [ensure_db_exists] and [load_db] observe it. *)
Inductive db_file : Type :=
| Missing                (** [DB_PATH.exists()] is false *)
| Blank                  (** the content is empty or whitespace only *)
| Corrupt                (** any other text that [json.loads] rejects *)
| Stored (v : json).     (** text that [json.loads] reads as [v] *)

Definition path_exists (f : db_file) : bool :=
  match f with Missing => false | _ => true end.

(** [DB_PATH.read_text().strip() == ""] *)
Definition content_blank (f : db_file) : bool :=
  match f with Blank => true | _ => false end.

(** [json.loads(DB_PATH.read_text())] *)
Definition read_json (f : db_file) : exc json :=
  match f with
  | Missing => Raise FileNotFoundError
  | Blank | Corrupt => Raise JSONDecodeError
  | Stored v => Ok v
  end.

(** [DB_PATH.write_text(json.dumps(data, indent=2))] *)
Definition save_db (data : json) : db_file := Stored data.

Definition empty_doc : json :=
  JDict [("products", JList []); ("orders", JList [])].

Definition ensure_db_exists (f : db_file) : db_file :=
  if negb (path_exists f) then save_db empty_doc
  else if content_blank f then save_db empty_doc
  else f.

Definition is_list (v : json) : bool :=
  match v with JList _ => true | _ => false end.

(** The two repairs of [load_db] on a parsed object. *)
Definition repair_key (data : pydict) (k : string) : pydict :=
  match dict_get data k with
  | Some v => if is_list v then data else dict_set data k (JList [])
  | None => dict_set data k (JList [])
  end.

(** [load_db]: the document and the file left behind.  On parsed JSON that is
    not an object, [load_db] raises [TypeError] in its first [if]: the test
    ["products" not in data] raises it for [None], a bool and a number; for
    a list and a string the test succeeds and the subscript [data["products"]]
    (read or assigned) raises it. *)
Definition load_db (f : db_file) : exc pydict * db_file :=
  let f1 := ensure_db_exists f in
  match read_json f1 with
  | Raise e => (Raise e, f1)
  | Ok (JDict data) => (Ok (repair_key (repair_key data "products") "orders"), f1)
  | Ok _ => (Raise TypeError, f1)
  end.

(** [data[k]] for the two collections; [load_db] makes both lists. *)
Definition get_list (data : pydict) (k : string) : list json :=
  match dict_get data k with
  | Some (JList l) => l
  | _ => []
  end.

(** [data] after its list [data[k]] has been mutated into [l]. *)
Definition set_list (data : pydict) (k : string) (l : list json) : pydict :=
  dict_set data k (JList l).

Section Store.
Context `{PyRuntime}.

(** The key under which [index_by_id] files an entry, if it files it. *)
Definition index_key (it : json) : option string :=
  match it with
  | JDict d =>
      match dict_get d "id" with
      | Some v => Some (py_str v)
      | None => None
      end
  | _ => None
  end.

(** The loop of [index_by_id], from position [i] on. *)
Fixpoint index_from (i : nat) (items : list json) (out : gmap string nat)
  : gmap string nat :=
  match items with
  | [] => out
  | it :: rest =>
      index_from (S i) rest
        (match index_key it with
         | Some k => <[k := i]> out
         | None => out
         end)
  end.

(** [index_by_id(items)]: each id is mapped to (the position of) the record
    of [items] that carries it. *)
Definition index_by_id (items : list json) : gmap string nat :=
  index_from 0 items ∅.

(** The object the reference [j] into [items] stands for. *)
Definition deref (items : list json) (j : nat) : json :=
  default JNull (items !! j).

(** [str(it.get(k))] *)
Definition get_str (k : string) (it : json) : exc string :=
  match it with
  | JDict d => Ok (py_str (dict_get_or d k JNull))
  | _ => Raise AttributeError
  end.

(** [[x for x in l if str(x.get(k)) != id]] *)
Fixpoint drop_matching (k id : string) (l : list json) : exc (list json) :=
  match l with
  | [] => Ok []
  | x :: rest =>
      s ← get_str k x;
      rest' ← drop_matching k id rest;
      Ok (if String.eqb s id then rest' else x :: rest')
  end.

(** [r[k] = v] on a record *)
Definition record_set (k : string) (v : json) (r : json) : json :=
  match r with
  | JDict d => JDict (dict_set d k v)
  | _ => r
  end.

(** The write-back loop of the two update handlers: the first entry whose
    [str(p.get("id"))] is [id] is replaced by [rec]. *)
Fixpoint write_back (l : list json) (id : string) (rec : json) : exc (list json) :=
  match l with
  | [] => Ok []
  | p :: rest =>
      s ← get_str "id" p;
      if String.eqb s id then Ok (rec :: rest)
      else rest' ← write_back rest id rec; Ok (p :: rest')
  end.
End Store.

(** ** Requests and responses *)

(** What a handler leaves to Flask: a JSON response with its status code, or
    an exception nobody caught. *)
Inductive outcome : Type :=
| Resp (code : Z) (payload : json)
| Crash (e : exn).

Definition bad_request (msg : string) : outcome :=
  Resp 400 (JDict [("error", JStr "Bad Request"); ("message", JStr msg)]).

Definition not_found (msg : string) : outcome :=
  Resp 404 (JDict [("error", JStr "Not Found"); ("message", JStr msg)]).

(** [get_body]: the parsed request body when it is an object, else [{}]. *)
Definition get_body (raw : json) : pydict :=
  match raw with JDict b => b | _ => [] end.

(** What a request draws from the clock and from the random source. *)
Record env : Type := {
  utcnow_isoformat : string;     (** [datetime.utcnow().isoformat()] *)
  uuid4 : N                      (** [uuid.uuid4()], as its 128-bit integer *)
}.

Definition now_iso (e : env) : string := utcnow_isoformat e +:+ "Z".

Definition hex_digit (n : N) : ascii :=
  nth (N.to_nat n) (list_ascii_of_string "0123456789abcdef") "0"%char.

Fixpoint hex_digits (count : nat) (n : N) (acc : string) : string :=
  match count with
  | O => acc
  | S count' => hex_digits count' (n / 16)%N (String (hex_digit (n mod 16)%N) acc)
  end.

(** [u.hex]: 32 lower-case hexadecimal digits *)
Definition uuid_hex (u : N) : string := hex_digits 32 u "".

(** [f"{prefix}{uuid.uuid4().hex[:8]}"] *)
Definition fresh_id (prefix : string) (e : env) : string :=
  prefix +:+ substring 0 8 (uuid_hex (uuid4 e)).

Definition is_none (v : json) : bool :=
  match v with JNull => true | _ => false end.

(** The verdict of the item loop shared by [create_order] and [update_order]. *)
Inductive verdict : Type :=
| Rejected (msg : string)
| Accepted (items : list json).

Section Handlers.
Context `{PyRuntime}.

(** *** Products *)

Definition list_products (f : db_file) : outcome * db_file :=
  match load_db f with
  | (Raise ex, f1) => (Crash ex, f1)
  | (Ok data, f1) => (Resp 200 (JList (get_list data "products")), f1)
  end.

Definition create_product (e : env) (raw : json) (f : db_file) : outcome * db_file :=
  let body := get_body raw in
  let name := dict_get_or body "name" JNull in
  let price := dict_get_or body "price" JNull in
  if negb (py_truthy name) then (bad_request "Field 'name' is required", f)
  else if is_none price then (bad_request "Field 'price' is required", f)
  else
    match py_float price with
    | Raise _ => (bad_request "Field 'price' must be a number", f)
    | Ok price_val =>
        match load_db f with
        | (Raise ex, f1) => (Crash ex, f1)
        | (Ok data, f1) =>
            let products := get_list data "products" in
            let p_index := index_by_id products in
            let pid := py_str (py_or (dict_get_or body "id" JNull)
                                     (JStr (fresh_id "p-" e))) in
            match p_index !! pid with
            | Some _ => (bad_request "Product id already exists", f1)
            | None =>
                let product :=
                  JDict [("id", JStr pid);
                         ("name", JStr (py_str name));
                         ("price", JFloat price_val);
                         ("createdAt", JStr (now_iso e))] in
                (Resp 201 product,
                 save_db (JDict (set_list data "products" (products ++ [product]))))
            end
        end
    end.

Definition get_product (pid : string) (f : db_file) : outcome * db_file :=
  match load_db f with
  | (Raise ex, f1) => (Crash ex, f1)
  | (Ok data, f1) =>
      let products := get_list data "products" in
      match index_by_id products !! pid with
      | None => (not_found "product not found", f1)
      | Some j => (Resp 200 (deref products j), f1)
      end
  end.

Definition update_product (pid : string) (raw : json) (f : db_file)
  : outcome * db_file :=
  let body := get_body raw in
  match load_db f with
  | (Raise ex, f1) => (Crash ex, f1)
  | (Ok data, f1) =>
      let products := get_list data "products" in
      match index_by_id products !! pid with
      | None => (not_found "product not found", f1)
      | Some j =>
          let products :=
            match dict_get body "name" with
            | Some v => alter (record_set "name" (JStr (py_str v))) j products
            | None => products
            end in
          let priced :=
            match dict_get body "price" with
            | Some v =>
                match py_float v with
                | Ok x => Ok (alter (record_set "price" (JFloat x)) j products)
                | Raise ex => Raise ex
                end
            | None => Ok products
            end in
          match priced with
          | Raise _ => (bad_request "Field 'price' must be a number", f1)
          | Ok products =>
              match write_back products pid (deref products j) with
              | Raise ex => (Crash ex, f1)
              | Ok products' =>
                  (Resp 200 (deref products j),
                   save_db (JDict (set_list data "products" products')))
              end
          end
      end
  end.

(** The cascade of [delete_product] on one order. *)
Definition prune_order (pid : string) (o : json) : exc json :=
  match o with
  | JDict d =>
      match dict_get d "items" with
      | Some (JList items) =>
          items' ← drop_matching "productId" pid items;
          Ok (JDict (dict_set d "items" (JList items')))
      | _ => Ok o
      end
  | _ => Ok o
  end.

Fixpoint prune_orders (pid : string) (orders : list json) : exc (list json) :=
  match orders with
  | [] => Ok []
  | o :: rest =>
      o' ← prune_order pid o;
      rest' ← prune_orders pid rest;
      Ok (o' :: rest')
  end.

Definition delete_product (pid : string) (f : db_file) : outcome * db_file :=
  match load_db f with
  | (Raise ex, f1) => (Crash ex, f1)
  | (Ok data, f1) =>
      let products := get_list data "products" in
      let orders := get_list data "orders" in
      match drop_matching "id" pid products with
      | Raise ex => (Crash ex, f1)
      | Ok kept =>
          if (length kept =? length products)%nat
          then (not_found "product not found", f1)
          else
            match prune_orders pid orders with
            | Raise ex => (Crash ex, f1)
            | Ok orders' =>
                (Resp 200 (JDict [("deleted", JStr pid)]),
                 save_db (JDict (set_list (set_list data "products" kept)
                                          "orders" orders')))
            end
      end
  end.
(** *** Orders *)

Definition list_orders (f : db_file) : outcome * db_file :=
  match load_db f with
  | (Raise ex, f1) => (Crash ex, f1)
  | (Ok data, f1) => (Resp 200 (JList (get_list data "orders")), f1)
  end.

(** The item loop, written twice in [app.py] (in [create_order] and in
    [update_order]) with the same body. *)
Fixpoint validate_items (products_index : gmap string nat) (items : list json)
  : verdict :=
  match items with
  | [] => Accepted []
  | it :: rest =>
      match it with
      | JDict d =>
          let product_id := str_strip (py_str (dict_get_or d "productId" (JStr ""))) in
          let qty := dict_get_or d "qty" JNull in
          if String.eqb product_id "" then Rejected "Each item must include productId"
          else
            match products_index !! product_id with
            | None => Rejected ("productId does not exist: " +:+ product_id)
            | Some _ =>
                match py_int qty with
                | Raise _ => Rejected "qty must be an integer"
                | Ok qty_val =>
                    if (qty_val <=? 0)%Z then Rejected "qty must be a positive integer"
                    else
                      match validate_items products_index rest with
                      | Rejected msg => Rejected msg
                      | Accepted normalized =>
                          Accepted (JDict [("productId", JStr product_id);
                                           ("qty", JInt qty_val)] :: normalized)
                      end
                end
            end
      | _ => Rejected "Each item must be an object with productId and qty"
      end
  end.

(** [isinstance(v, list) and len(v) != 0] *)
Definition nonempty_list (v : json) : option (list json) :=
  match v with
  | JList (it :: rest) => Some (it :: rest)
  | _ => None
  end.

Definition create_order (e : env) (raw : json) (f : db_file) : outcome * db_file :=
  let body := get_body raw in
  let customer := dict_get_or body "customer" JNull in
  let items := dict_get_or body "items" JNull in
  let status := dict_get_or body "status" (JStr "NEW") in
  if negb (py_truthy customer) then (bad_request "Field 'customer' is required", f)
  else
    match nonempty_list items with
    | None => (bad_request "Field 'items' must be a non-empty list", f)
    | Some items =>
        match load_db f with
        | (Raise ex, f1) => (Crash ex, f1)
        | (Ok data, f1) =>
            let products_index := index_by_id (get_list data "products") in
            let orders := get_list data "orders" in
            let o_index := index_by_id orders in
            match validate_items products_index items with
            | Rejected msg => (bad_request msg, f1)
            | Accepted normalized_items =>
                let oid := py_str (py_or (dict_get_or body "id" JNull)
                                         (JStr (fresh_id "o-" e))) in
                match o_index !! oid with
                | Some _ => (bad_request "Order id already exists", f1)
                | None =>
                    let order :=
                      JDict [("id", JStr oid);
                             ("customer", JStr (py_str customer));
                             ("items", JList normalized_items);
                             ("status", JStr (py_str status));
                             ("createdAt", JStr (now_iso e))] in
                    (Resp 201 order,
                     save_db (JDict (set_list data "orders" (orders ++ [order]))))
                end
            end
        end
    end.

Definition get_order (oid : string) (f : db_file) : outcome * db_file :=
  match load_db f with
  | (Raise ex, f1) => (Crash ex, f1)
  | (Ok data, f1) =>
      let orders := get_list data "orders" in
      match index_by_id orders !! oid with
      | None => (not_found "order not found", f1)
      | Some j => (Resp 200 (deref orders j), f1)
      end
  end.

(** The tail of [update_order]: write back, save, answer. *)
Definition finish_update_order (oid : string) (j : nat) (data : pydict)
    (orders : list json) (f1 : db_file) : outcome * db_file :=
  match write_back orders oid (deref orders j) with
  | Raise ex => (Crash ex, f1)
  | Ok orders' =>
      (Resp 200 (deref orders j), save_db (JDict (set_list data "orders" orders')))
  end.

Definition update_order (oid : string) (raw : json) (f : db_file)
  : outcome * db_file :=
  let body := get_body raw in
  match load_db f with
  | (Raise ex, f1) => (Crash ex, f1)
  | (Ok data, f1) =>
      let orders := get_list data "orders" in
      match index_by_id orders !! oid with
      | None => (not_found "order not found", f1)
      | Some j =>
          let orders :=
            match dict_get body "status" with
            | Some v => alter (record_set "status" (JStr (py_str v))) j orders
            | None => orders
            end in
          let orders :=
            match dict_get body "customer" with
            | Some v => alter (record_set "customer" (JStr (py_str v))) j orders
            | None => orders
            end in
          match dict_get body "items" with
          | Some v =>
              match nonempty_list v with
              | None => (bad_request "items must be a non-empty list", f1)
              | Some items =>
                  let products_index := index_by_id (get_list data "products") in
                  match validate_items products_index items with
                  | Rejected msg => (bad_request msg, f1)
                  | Accepted new_items =>
                      finish_update_order oid j data
                        (alter (record_set "items" (JList new_items)) j orders) f1
                  end
              end
          | None => finish_update_order oid j data orders f1
          end
      end
  end.

Definition delete_order (oid : string) (f : db_file) : outcome * db_file :=
  match load_db f with
  | (Raise ex, f1) => (Crash ex, f1)
  | (Ok data, f1) =>
      let orders := get_list data "orders" in
      match drop_matching "id" oid orders with
      | Raise ex => (Crash ex, f1)
      | Ok kept =>
          if (length kept =? length orders)%nat
          then (not_found "order not found", f1)
          else (Resp 200 (JDict [("deleted", JStr oid)]),
                save_db (JDict (set_list data "orders" kept)))
      end
  end.
End Handlers.

(** ** A runtime for ASCII text

    An instance of [PyRuntime] that computes, for strings of ASCII
    characters.  It is CPython's behaviour except that
    - [int(s)] accepts an optional sign and decimal digits only, not the
      underscores CPython allows between digits ([ValueError] instead);
    - [float(s)] accepts an optional sign and a decimal literal with an
      optional fraction only, not an exponent, [inf], [infinity], [nan] or
      underscores ([ValueError] instead);
    - [repr] of a float prints its exact decimal expansion, where CPython
      prints the shortest digits that round-trip (the same for values such as
      [12.5], different for [0.1]).
    The theorems below hold for every [PyRuntime]; this instance serves to
    run the handlers on examples. *)
Module AsciiRuntime.

Definition is_space (c : ascii) : bool :=
  let n := N_of_ascii c in
  ((9 <=? n) && (n <=? 13) || (28 <=? n) && (n <=? 32))%N.

Fixpoint lstrip (s : string) : string :=
  match s with
  | String c s' => if is_space c then lstrip s' else s
  | EmptyString => EmptyString
  end.

Definition strip (s : string) : string :=
  String.rev (lstrip (String.rev (lstrip s))).

Definition is_digit (c : ascii) : bool :=
  let n := N_of_ascii c in ((48 <=? n) && (n <=? 57))%N.

(** The value of a string of decimal digits, if it is one. *)
Fixpoint digits_value (s : string) (acc : Z) : option Z :=
  match s with
  | EmptyString => Some acc
  | String c s' =>
      if is_digit c
      then digits_value s' (10 * acc + Z.of_N (N_of_ascii c) - 48)
      else None
  end.

(** Sign and magnitude text of a literal. *)
Definition split_sign (s : string) : bool * string :=
  match s with
  | String "-" s' => (true, s')
  | String "+" s' => (false, s')
  | _ => (false, s)
  end.

Definition parse_int (s : string) : option Z :=
  let '(neg, body) := split_sign (strip s) in
  match body with
  | EmptyString => None
  | _ => z ← digits_value body 0; Some (if neg then - z else z)
  end.

(** The text before and after the first ["."]. *)
Fixpoint split_point (s : string) : string * option string :=
  match s with
  | EmptyString => (EmptyString, None)
  | String "." s' => (EmptyString, Some s')
  | String c s' => let '(a, b) := split_point s' in (String c a, b)
  end.

Definition ratio_to_float (neg : bool) (num : Z) (scale : positive) : spec_float :=
  match num with
  | Z.pos m => SFdiv prec emax (S754_finite neg m 0) (S754_finite false scale 0)
  | _ => S754_zero neg
  end.

Definition parse_float (s : string) : option spec_float :=
  let '(neg, body) := split_sign (strip s) in
  let '(ip, fp) := split_point body in
  let fp := default EmptyString fp in
  match (String.length ip + String.length fp)%nat with
  | O => None
  | _ =>
      i ← digits_value ip 0;
      f ← digits_value fp 0;
      let scale := Pos.pow 10 (Pos.of_nat (String.length fp)) in
      Some (match fp with
            | EmptyString => ratio_to_float neg i 1
            | _ => ratio_to_float neg (i * Z.pos scale + f) scale
            end)
  end.

Fixpoint fixed_digits (count : nat) (n : Z) (acc : string) : string :=
  match count with
  | O => acc
  | S count' =>
      fixed_digits count' (n / 10)
        (String (ascii_of_N (Z.to_N (48 + n mod 10))) acc)
  end.

Fixpoint drop_trailing_zeros (s : string) : string :=
  match s with
  | EmptyString => EmptyString
  | String c s' =>
      match drop_trailing_zeros s' with
      | EmptyString => if Ascii.eqb c "0" then EmptyString else String c EmptyString
      | t => String c t
      end
  end.

Definition fraction_text (count : nat) (n : Z) : string :=
  match drop_trailing_zeros (fixed_digits count n EmptyString) with
  | EmptyString => "0"
  | t => t
  end.

Definition repr_float (x : spec_float) : string :=
  match x with
  | S754_zero s => if s then "-0.0" else "0.0"
  | S754_infinity s => if s then "-inf" else "inf"
  | S754_nan => "nan"
  | S754_finite s m e =>
      let sign := if s then "-" else "" in
      if (0 <=? e)%Z then sign +:+ str_of_Z (Z.pos m * 2 ^ e) +:+ ".0"
      else
        let scaled := Z.pos m * 5 ^ (- e) in
        sign +:+ str_of_Z (scaled / 10 ^ (- e)) +:+
        String "." (fraction_text (Z.to_nat (- e)) (scaled mod 10 ^ (- e)))
  end.

Definition backslash : ascii := ascii_of_N 92.
Definition double_quote : ascii := ascii_of_N 34.
Definition single_quote : ascii := ascii_of_N 39.

Definition escaped (c : ascii) : string := String backslash (String c EmptyString).

Definition escape_char (quote c : ascii) : string :=
  let n := N_of_ascii c in
  if Ascii.eqb c backslash then escaped backslash
  else if Ascii.eqb c quote then escaped c
  else if (n =? 10)%N then escaped "n"
  else if (n =? 13)%N then escaped "r"
  else if (n =? 9)%N then escaped "t"
  else if ((n <? 32) || (n =? 127))%N
       then escaped "x" +:+
            String (hex_digit (n / 16)) (String (hex_digit (n mod 16)) EmptyString)
  else String c EmptyString.

Fixpoint escape (quote : ascii) (s : string) : string :=
  match s with
  | EmptyString => EmptyString
  | String c s' => escape_char quote c +:+ escape quote s'
  end.

Fixpoint contains_char (c : ascii) (s : string) : bool :=
  match s with
  | EmptyString => false
  | String c' s' => Ascii.eqb c c' || contains_char c s'
  end.

Definition repr_str (s : string) : string :=
  let quote : ascii :=
    if contains_char single_quote s && negb (contains_char double_quote s)
    then double_quote else single_quote in
  String quote (escape quote s) +:+ String quote EmptyString.

Definition runtime : PyRuntime := {|
  str_strip := strip;
  str_repr := repr_str;
  float_repr := repr_float;
  float_of_str := parse_float;
  int_of_str := parse_int
|}.

End AsciiRuntime.


(** ** Configuration, the API key and the health probe *)

(** The module-level configuration of [app.py]. *)
Record config : Type := {
  API_KEY : string;
  INSTANCE_NAME : string;
  hostname : string;            (** [socket.gethostname()] *)
  DB_PATH : string              (** [str(DB_PATH)] *)
}.

(** [os.getenv("API_KEY", "CHANGE_ME")]: the default applies when the variable
    is not set; a variable set to the empty string gives the empty key. *)
Definition api_key_from_env (variable : option string) : string :=
  default "CHANGE_ME" variable.

Definition unauthorized : outcome :=
  Resp 401 (JDict [("error", JStr "Unauthorized");
                   ("message", JStr "Missing or invalid API key")]).

(** The decorator [require_api_key] around a handler; [header] is the
    [X-API-Key] header of the request, if it has one. *)
Definition require_api_key (cfg : config) (header : option string)
    (handler : db_file → outcome * db_file) (f : db_file) : outcome * db_file :=
  let provided := default "" header in
  if String.eqb provided "" || negb (String.eqb provided (API_KEY cfg))
  then (unauthorized, f)
  else handler f.

(** [GET /health] *)
Definition health (cfg : config) (e : env) : outcome :=
  Resp 200 (JDict [("status", JStr "ok");
                   ("time", JStr (now_iso e));
                   ("instance_name", JStr (INSTANCE_NAME cfg));
                   ("hostname", JStr (hostname cfg));
                   ("db_path", JStr (DB_PATH cfg))]).
(** * Vocabulary of the properties *)

(** A document as [load_db] hands it out: both collections are lists. *)
Definition is_document (data : pydict) : Prop :=
  (∃ ps, dict_get data "products" = Some (JList ps)) ∧
  (∃ os, dict_get data "orders" = Some (JList os)).


Section Vocabulary.
Context `{PyRuntime}.

(** The last position of [items] that [index_by_id] files under [k]. *)
Fixpoint last_index (k : string) (items : list json) : option nat :=
  match items with
  | [] => None
  | it :: rest =>
      match last_index k rest with
      | Some j => Some (S j)
      | None => if decide (index_key it = Some k) then Some 0%nat else None
      end
  end.

(** The collection [items] holds a record whose id, as a string, is [id]. *)
Definition has_id (items : list json) (id : string) : Prop :=
  ∃ it, it ∈ items ∧ index_key it = Some id.

(** The two collections and the handlers that serve them. *)
Inductive collection : Type := Products | Orders.

Definition collection_key (c : collection) : string :=
  match c with Products => "products" | Orders => "orders" end.

Definition id_prefix (c : collection) : string :=
  match c with Products => "p-" | Orders => "o-" end.

(** [POST /products], [POST /orders] *)
Definition create (c : collection) : env → json → db_file → outcome * db_file :=
  match c with Products => create_product | Orders => create_order end.

(** [GET /products/<id>], [GET /orders/<id>] *)
Definition get (c : collection) : string → db_file → outcome * db_file :=
  match c with Products => get_product | Orders => get_order end.

(** The value under ["id"] of a record. *)
Definition record_id (r : json) : option json :=
  match r with JDict d => dict_get d "id" | _ => None end.

(** The field [k] of a record. *)
Definition field (k : string) (r : json) : option json :=
  match r with JDict d => dict_get d k | _ => None end.

(** The write requests of the API. *)
Inductive write_op : Type :=
| CreateProduct (e : env) (raw : json)
| UpdateProduct (pid : string) (raw : json)
| DeleteProduct (pid : string)
| CreateOrder (e : env) (raw : json)
| UpdateOrder (oid : string) (raw : json)
| DeleteOrder (oid : string).

Definition run_write (op : write_op) : db_file → outcome * db_file :=
  match op with
  | CreateProduct e raw => create_product e raw
  | UpdateProduct pid raw => update_product pid raw
  | DeleteProduct pid => delete_product pid
  | CreateOrder e raw => create_order e raw
  | UpdateOrder oid raw => update_order oid raw
  | DeleteOrder oid => delete_order oid
  end.

(** The [GET] requests of the API. *)
Inductive read_op : Type :=
| ListProducts
| GetProduct (pid : string)
| ListOrders
| GetOrder (oid : string).

Definition run_read (op : read_op) : db_file → outcome * db_file :=
  match op with
  | ListProducts => list_products
  | GetProduct pid => get_product pid
  | ListOrders => list_orders
  | GetOrder oid => get_order oid
  end.

(** The file after a sequence of [GET] requests, served one after the other. *)
Fixpoint run_reads (ops : list read_op) (f : db_file) : db_file :=
  match ops with
  | [] => f
  | op :: rest => run_reads rest (run_read op f).2
  end.

End Vocabulary.

Section Orders.
Context `{PyRuntime}.

(** The comparison the handlers make between a record and an id in the path:
    [str(p.get("id")) == id]. *)
Definition carries_id (id : string) (p : json) : Prop := get_str "id" p = Ok id.

(** The comparison [delete_product] makes between an item and the deleted id:
    [str(it.get("productId")) == pid].  An item whose [productId] is the string
    [pid] references [pid]. *)
Definition references (pid : string) (it : json) : Prop :=
  get_str "productId" it = Ok pid.

(** The item list of an order that has one. *)
Definition order_items (o : json) : option (list json) :=
  match o with
  | JDict d =>
      match dict_get d "items" with
      | Some (JList items) => Some items
      | _ => None
      end
  | _ => None
  end.

End Orders.

Section Items.
Context `{PyRuntime}.

(** The product id an item object names: its [productId], as a string,
    stripped of surrounding whitespace (the empty string when absent). *)
Definition item_product_id (d : pydict) : string :=
  str_strip (py_str (dict_get_or d "productId" (JStr ""))).

(** An item as the specification wants it, against the products collection:
    an object whose product id is not empty and is the id of a product, and
    whose [qty] converts to an integer greater than zero. *)
Definition item_valid (products : list json) (it : json) : Prop :=
  ∃ d q,
    it = JDict d ∧
    item_product_id d ≠ "" ∧
    has_id products (item_product_id d) ∧
    py_int (dict_get_or d "qty" JNull) = Ok q ∧ (0 < q)%Z.

(** The normal form under which a valid item is stored. *)
Definition normalized_item (it : json) : json :=
  match it with
  | JDict d =>
      JDict [("productId", JStr (item_product_id d));
             ("qty", JInt (match py_int (dict_get_or d "qty" JNull) with
                           | Ok q => q
                           | Raise _ => 0
                           end))]
  | _ => it
  end.

End Items.

(** The collection [c] of the document [load_db] reads from the file (empty
    when [load_db] raises). *)
Definition stored (c : collection) (f : db_file) : list json :=
  match load_db f with
  | (Ok data, _) => get_list data (collection_key c)
  | (Raise _, _) => []
  end.

(** The id a create request supplies: the value under ["id"], unless it is
    absent or falsy, in which case [body.get("id") or ...] passes it over. *)
Definition supplied_id (raw : json) : option json :=
  match dict_get (get_body raw) "id" with
  | Some v => if py_truthy v then Some v else None
  | None => None
  end.

Definition is_hex_digit (c : ascii) : bool :=
  existsb (Ascii.eqb c) (list_ascii_of_string "0123456789abcdef").

(** [s] consists of hexadecimal digits. *)
Definition is_hex (s : string) : bool := forallb is_hex_digit (list_ascii_of_string s).

(** The conditional assignment of the update handlers,
    [if k in body: index[id][k] = str(body[k])], on the record at [j]. *)
Definition assign_str `{PyRuntime} (k : string) (ov : option json) (j : nat)
    (records : list json) : list json :=
  match ov with
  | Some v => alter (record_set k (JStr (py_str v))) j records
  | None => records
  end.

Section Api.
Context `{PyRuntime}.

(** [DELETE /products/<id>], [DELETE /orders/<id>] *)
Definition delete (c : collection) : string → db_file → outcome * db_file :=
  match c with Products => delete_product | Orders => delete_order end.

(** [GET /products], [GET /orders] *)
Definition list_all (c : collection) : db_file → outcome * db_file :=
  match c with Products => list_products | Orders => list_orders end.

Definition other (c : collection) : collection :=
  match c with Products => Orders | Orders => Products end.

(** The requests the application routes. *)
Inductive request : Type :=
| Health (e : env)
| Read (op : read_op)
| Write (op : write_op).

(** The application: every route but [/health] is wrapped in
    [require_api_key]. *)
Definition serve (cfg : config) (header : option string) (req : request)
    (f : db_file) : outcome * db_file :=
  match req with
  | Health e => (health cfg e, f)
  | Read op => require_api_key cfg header (run_read op) f
  | Write op => require_api_key cfg header (run_write op) f
  end.

(** The answer is a success: 200 or 201. *)
Definition is_success (out : outcome) : Prop :=
  ∃ payload, out = Resp 200 payload ∨ out = Resp 201 payload.

(** [str(x.get(k)) == id], false when [x] has no [get]. *)
Definition matches (k id : string) (x : json) : bool :=
  match get_str k x with
  | Ok s => String.eqb s id
  | Raise _ => false
  end.

(** An order after the cascade of a deleted product, when nothing raises. *)
Definition pruned (pid : string) (o : json) : json :=
  match order_items o with
  | Some items =>
      record_set "items" (JList (List.filter (λ it, negb (matches "productId" pid it)) items)) o
  | None => o
  end.

(** Every record of a collection is filed by the index, each under an id of
    its own. *)
Definition unique_ids (items : list json) : Prop :=
  Forall (λ it, is_Some (index_key it)) items ∧ NoDup (omap index_key items).

End Api.

Section Sequences.
Context `{PyRuntime}.

(** The file after a sequence of write requests, served one after the other. *)
Fixpoint run_writes (ops : list write_op) (f : db_file) : db_file :=
  match ops with
  | [] => f
  | op :: rest => run_writes rest (run_write op f).2
  end.

(** In both collections of the file every record has an id of its own. *)
Definition store_unique (f : db_file) : Prop :=
  unique_ids (stored Products f) ∧ unique_ids (stored Orders f).

End Sequences.

(** The id [create_product] and [create_order] generate,
    [f"p-{uuid.uuid4().hex[:8]}"] and [f"o-{uuid.uuid4().hex[:8]}"], written
    out from the random draw. *)
Definition generated_id (c : collection) (e : env) : string :=
  id_prefix c +:+ substring 0 8 (uuid_hex (uuid4 e)).

(** The request [raw] with its ["id"] set to the string [id]. *)
Definition with_id (raw : json) (id : string) : json :=
  JDict (dict_set (get_body raw) "id" (JStr id)).

(** * A small shop

    The scenario of the specification, on the runtime for ASCII text: a
    notebook at 12.5, and Fatima's order of two of them. *)
Module Shop.
Import AsciiRuntime.

Definition clock : env :=
  {| utcnow_isoformat := "2024-05-01T10:00:00";
     uuid4 := 0x9f3b6c1e5d2a4f708b1c2d3e4f506172%N |}.

(** 12.5 *)
Definition price_12_5 : spec_float := S754_finite false 7036874417766400 (-49).

Definition notebook_request : json :=
  JDict [("name", JStr "Notebook"); ("price", JFloat price_12_5)].

Definition notebook (id : string) : json :=
  JDict [("id", JStr id); ("name", JStr "Notebook"); ("price", JFloat price_12_5);
         ("createdAt", JStr "2024-05-01T10:00:00Z")].

Definition line (product_id : string) (qty : Z) : json :=
  JDict [("productId", JStr product_id); ("qty", JInt qty)].

Definition order_request (items : list json) : json :=
  JDict [("customer", JStr "Fatima"); ("items", JList items)].

Definition order (id : string) (items : list json) : json :=
  JDict [("id", JStr id); ("customer", JStr "Fatima"); ("items", JList items);
         ("status", JStr "NEW"); ("createdAt", JStr "2024-05-01T10:00:00Z")].

Definition document (products orders : list json) : json :=
  JDict [("products", JList products); ("orders", JList orders)].

(** The file once the notebook [p1] and the order [o1] for it exist. *)
Definition shop : db_file :=
  Stored (document [notebook "p1"] [order "o1" [line "p1" 2]]).

(** A second order of Fatima's, for three notebooks, the quantity as text. *)
Definition second_order_request : json :=
  order_request [JDict [("productId", JStr " p1 "); ("qty", JStr "3")]].

Definition second_order : json := order "o-9f3b6c1e" [line "p1" 3].

Definition shop_with_second_order : db_file :=
  Stored (document [notebook "p1"]
            [order "o1" [line "p1" 2]; second_order]).

End Shop.
(** * Properties *)

(** ** Dictionaries *)

Lemma dict_get_set_eq (d : pydict) k v : dict_get (dict_set d k v) k = Some v.
Proof.
  induction d as [|[k0 v0] d IH]; simpl.
  - by rewrite String.eqb_refl.
  - destruct (String.eqb_spec k0 k) as [->|Hne]; simpl.
    + by rewrite String.eqb_refl.
    + by destruct (String.eqb_spec k0 k).
Qed.

Lemma dict_get_set_ne (d : pydict) k k' v :
  k ≠ k' → dict_get (dict_set d k v) k' = dict_get d k'.
Proof.
  intros Hne. induction d as [|[k0 v0] d IH]; simpl.
  - by destruct (String.eqb_spec k k').
  - destruct (String.eqb_spec k0 k) as [->|Hk]; simpl.
    + by destruct (String.eqb_spec k k').
    + by rewrite IH.
Qed.

Lemma get_list_set_eq (data : pydict) k l : get_list (set_list data k l) k = l.
Proof. unfold get_list, set_list. by rewrite dict_get_set_eq. Qed.

Lemma get_list_set_ne (data : pydict) k k' l :
  k ≠ k' → get_list (set_list data k l) k' = get_list data k'.
Proof. intros. unfold get_list, set_list. by rewrite dict_get_set_ne. Qed.

(** ** The file and [load_db] *)

Lemma repair_key_list data k : ∃ l, dict_get (repair_key data k) k = Some (JList l).
Proof.
  unfold repair_key. destruct (dict_get data k) as [v|] eqn:E.
  - destruct v; simpl; rewrite ?dict_get_set_eq; eauto.
  - rewrite dict_get_set_eq; eauto.
Qed.

Lemma repair_key_other data k k' :
  k ≠ k' → dict_get (repair_key data k) k' = dict_get data k'.
Proof.
  intros. unfold repair_key.
  destruct (dict_get data k) as [v|]; [destruct (is_list v)|]; by rewrite ?dict_get_set_ne.
Qed.

Lemma repair_key_id data k l : dict_get data k = Some (JList l) → repair_key data k = data.
Proof. intros E. unfold repair_key. by rewrite E. Qed.

Lemma repair_is_document data :
  is_document (repair_key (repair_key data "products") "orders").
Proof.
  split.
  - rewrite repair_key_other by done. destruct (repair_key_list data "products"); eauto.
  - destruct (repair_key_list (repair_key data "products") "orders"); eauto.
Qed.

Lemma repair_document data :
  is_document data → repair_key (repair_key data "products") "orders" = data.
Proof.
  intros [[ps Hp] [os Ho]].
  rewrite (repair_key_id data "products" ps Hp). by rewrite (repair_key_id data "orders" os Ho).
Qed.

Lemma ensure_db_exists_idem f : ensure_db_exists (ensure_db_exists f) = ensure_db_exists f.
Proof. by destruct f. Qed.

Lemma ensure_db_exists_cases f :
  (f ≠ Missing ∧ f ≠ Blank ∧ ensure_db_exists f = f) ∨
  ((f = Missing ∨ f = Blank) ∧ ensure_db_exists f = Stored empty_doc).
Proof. destruct f; simpl; naive_solver. Qed.

Lemma load_db_file f r f1 : load_db f = (r, f1) → f1 = ensure_db_exists f.
Proof.
  unfold load_db. intros E.
  destruct (read_json (ensure_db_exists f)) as [[]|]; by simplify_eq.
Qed.

Lemma load_db_ok f data f1 :
  load_db f = (Ok data, f1) →
  is_document data ∧ f1 = ensure_db_exists f ∧ ensure_db_exists f1 = f1 ∧
  ∃ d, f1 = Stored (JDict d) ∧ data = repair_key (repair_key d "products") "orders".
Proof.
  intros E. pose proof (load_db_file _ _ _ E) as ->.
  unfold load_db in E. rewrite ensure_db_exists_idem.
  destruct (ensure_db_exists f) as [| | |v] eqn:Ef; simpl in E; try done.
  destruct v; simplify_eq.
  split; [apply repair_is_document|]. repeat split; try done. eauto.
Qed.

(** After a save of a document, [load_db] returns that document and leaves
    the file alone. *)
Lemma load_db_saved data :
  is_document data → load_db (save_db (JDict data)) = (Ok data, save_db (JDict data)).
Proof. intros Hd. unfold load_db. simpl. by rewrite repair_document. Qed.

Lemma load_db_idem f : load_db (ensure_db_exists f) = load_db f.
Proof. unfold load_db. by rewrite ensure_db_exists_idem. Qed.

Lemma set_list_document data k l :
  is_document data → is_document (set_list data k l).
Proof.
  intros [[ps Hp] [os Ho]]. unfold is_document, set_list. split.
  - destruct (decide (k = "products")) as [->|];
      [rewrite dict_get_set_eq | rewrite dict_get_set_ne by done]; eauto.
  - destruct (decide (k = "orders")) as [->|];
      [rewrite dict_get_set_eq | rewrite dict_get_set_ne by done]; eauto.
Qed.

Lemma load_db_saved_list data k l :
  is_document data →
  load_db (save_db (JDict (set_list data k l))) =
  (Ok (set_list data k l), save_db (JDict (set_list data k l))).
Proof. intros. by apply load_db_saved, set_list_document. Qed.

(** ** The index *)

Section Index.
Context `{PyRuntime}.

Lemma index_from_lookup i items out k :
  index_from i items out !! k =
  match last_index k items with
  | Some j => Some (i + j)%nat
  | None => out !! k
  end.
Proof.
  revert i out. induction items as [|it rest IH]; intros i out; simpl; [done|].
  rewrite IH. destruct (last_index k rest) as [j|].
  - f_equal. lia.
  - destruct (index_key it) as [k'|] eqn:E.
    + destruct (decide (Some k' = Some k)) as [[= ->]|Hne].
      * rewrite lookup_insert_eq. f_equal; lia.
      * rewrite lookup_insert_ne; [done|congruence].
    + by rewrite decide_False.
Qed.

(** [index_by_id] maps an id to the last record that carries it. *)
Lemma index_by_id_lookup items k : index_by_id items !! k = last_index k items.
Proof.
  unfold index_by_id. rewrite index_from_lookup.
  destruct (last_index k items); [done|apply lookup_empty].
Qed.

Lemma last_index_Some k items j :
  last_index k items = Some j →
  ∃ it, items !! j = Some it ∧ index_key it = Some k.
Proof.
  revert j. induction items as [|it rest IH]; intros j; simpl; [done|].
  destruct (last_index k rest) as [j'|].
  - intros [= <-]. simpl. eauto.
  - case_decide; [|done]. intros [= <-]. simpl. eauto.
Qed.

Lemma last_index_None k items :
  last_index k items = None ↔ ¬ has_id items k.
Proof.
  unfold has_id. induction items as [|it rest IH]; simpl.
  - split; [|done]. intros _ (x & Hx & _). by apply elem_of_nil in Hx.
  - destruct (last_index k rest) as [j'|] eqn:E.
    + split; [done|]. intros Hno. exfalso.
      destruct (last_index_Some _ _ _ E) as (x & Hx & Hk).
      apply Hno. exists x. split; [|done]. right. by eapply list_elem_of_lookup_2.
    + destruct IH as [IH _]. specialize (IH eq_refl). case_decide as Hk.
      * split; [done|]. intros Hno. exfalso. apply Hno. exists it. split; [left|done].
      * split; [|done]. intros _ (x & Hx & Hkx).
        apply elem_of_cons in Hx as [->|Hx]; [done|]. apply IH. eauto.
Qed.

Lemma index_by_id_is_Some items k :
  is_Some (index_by_id items !! k) ↔ has_id items k.
Proof.
  rewrite index_by_id_lookup. destruct (last_index k items) as [j|] eqn:E.
  - split; [|eauto]. intros _. destruct (last_index_Some _ _ _ E) as (x & Hx & Hk).
    exists x. split; [by eapply list_elem_of_lookup_2|done].
  - apply last_index_None in E. split; [by intros []|done].
Qed.

Lemma last_index_snoc k items x :
  last_index k (items ++ [x]) =
  if decide (index_key x = Some k) then Some (length items) else last_index k items.
Proof.
  induction items as [|it rest IH]; simpl.
  - by case_decide.
  - rewrite IH. case_decide; [done|]. done.
Qed.

(** Setting a field other than ["id"] leaves the index alone. *)
Lemma index_key_record_set k v r : k ≠ "id" → index_key (record_set k v r) = index_key r.
Proof.
  intros Hk. destruct r; simpl; try done. by rewrite dict_get_set_ne.
Qed.

Lemma last_index_alter k (g : json → json) j items :
  (∀ r, index_key (g r) = index_key r) →
  last_index k (alter g j items) = last_index k items.
Proof.
  intros Hg. revert j. induction items as [|it rest IH]; intros [|j]; simpl; try done.
  - by rewrite Hg.
  - specialize (IH j). unfold alter in IH. by rewrite IH.
Qed.

Lemma index_key_get_str r k : index_key r = Some k → get_str "id" r = Ok k.
Proof.
  destruct r; simpl; try done. unfold dict_get_or.
  destruct (dict_get d "id"); [|done]. by intros [= ->].
Qed.

(** The write-back loop keeps the indexed record where it is. *)
Lemma write_back_last id l j r l' :
  last_index id l = Some j → l !! j = Some r →
  write_back l id r = Ok l' →
  last_index id l' = Some j ∧ l' !! j = Some r ∧ length l' = length l.
Proof.
  revert j l'. induction l as [|p rest IH]; intros j l'; simpl; [done|].
  destruct (get_str "id" p) as [s|] eqn:Es; simpl; [|done].
  destruct (String.eqb_spec s id) as [->|Hne].
  - intros Hj Hr [= <-]. simpl.
    destruct (last_index id rest) as [j'|] eqn:E.
    + simplify_eq. done.
    + case_decide; [|done]. simplify_eq. simpl in Hr. simplify_eq.
      by rewrite decide_True.
  - destruct (last_index id rest) as [j'|] eqn:E.
    + intros [= <-] Hr. simpl in Hr.
      destruct (write_back rest id r) as [rest'|] eqn:Ew; simpl; [|done].
      intros [= <-]. destruct (IH j' rest' eq_refl Hr eq_refl) as (Hl & Hj & Hlen).
      simpl. by rewrite Hl, Hlen.
    + case_decide as Hk; [|done]. apply index_key_get_str in Hk. congruence.
Qed.

Lemma load_db_initialised f :
  ensure_db_exists f = Stored empty_doc →
  load_db f = (Ok [("products", JList []); ("orders", JList [])], Stored empty_doc).
Proof. intros Hf. unfold load_db. rewrite Hf. reflexivity. Qed.

Lemma get_list_empty_doc k :
  get_list [("products", JList []); ("orders", JList [])] k = [].
Proof.
  unfold get_list. cbn [dict_get].
  destruct (String.eqb "products" k); [done|]. by destruct (String.eqb "orders" k).
Qed.

(** A record can only be found in a file that holds a document. *)
Lemma indexed_file_stored f data f1 k id j :
  load_db f = (Ok data, f1) →
  index_by_id (get_list data k) !! id = Some j → f1 = f.
Proof.
  intros El Ej. pose proof (load_db_file _ _ _ El) as ->.
  destruct (ensure_db_exists_cases f) as [(_ & _ & Hf)|[_ Hf]]; [exact Hf|].
  exfalso. rewrite (load_db_initialised f Hf) in El. injection El as <-.
  rewrite get_list_empty_doc, index_by_id_lookup in Ej. discriminate Ej.
Qed.

End Index.

(** ** Deleting a product *)

Section Cascade.
Context `{PyRuntime}.

Lemma drop_matching_elem k id l l' x :
  drop_matching k id l = Ok l' → x ∈ l' → x ∈ l ∧ get_str k x ≠ Ok id.
Proof.
  revert l'. induction l as [|y rest IH]; intros l'; simpl.
  - intros [= <-] Hx. by apply elem_of_nil in Hx.
  - destruct (get_str k y) as [s|] eqn:Es; simpl; [|done].
    destruct (drop_matching k id rest) as [rest'|]; simpl; [|done].
    intros [= <-] Hx. destruct (String.eqb_spec s id) as [->|Hne].
    + destruct (IH rest' eq_refl Hx). split; [by right|done].
    + apply elem_of_cons in Hx as [->|Hx].
      * split; [left|]. rewrite Es. congruence.
      * destruct (IH rest' eq_refl Hx). split; [by right|done].
Qed.

Lemma drop_matching_length k id l l' :
  drop_matching k id l = Ok l' → (length l' ≤ length l)%nat.
Proof.
  revert l'. induction l as [|y rest IH]; intros l'; simpl.
  - by intros [= <-].
  - destruct (get_str k y) as [s|]; simpl; [|done].
    destruct (drop_matching k id rest) as [rest'|]; simpl; [|done].
    intros [= <-]. specialize (IH rest' eq_refl). destruct (String.eqb s id); simpl; lia.
Qed.

Lemma drop_matching_all k id l :
  Forall (λ x, get_str k x = Ok id) l → drop_matching k id l = Ok [].
Proof.
  induction 1 as [|x rest Hx _ IH]; simpl; [done|].
  rewrite Hx, IH. simpl. by rewrite String.eqb_refl.
Qed.

Lemma prune_order_items pid o o' items it :
  prune_order pid o = Ok o' → order_items o' = Some items → it ∈ items →
  ¬ references pid it.
Proof.
  unfold prune_order, order_items, references. intros Ho Hitems Hit.
  destruct o as [| | | | |?|d]; simplify_eq; try done.
  destruct (dict_get d "items") as [[| | | | |l|]|] eqn:Ed; simplify_eq; try by rewrite Ed in Hitems.
  destruct (drop_matching "productId" pid l) as [l'|] eqn:El; simpl in Ho; simplify_eq.
  rewrite dict_get_set_eq in Hitems. simplify_eq.
  by destruct (drop_matching_elem _ _ _ _ _ El Hit).
Qed.

Lemma prune_order_emptied pid o items :
  order_items o = Some items → Forall (references pid) items →
  ∃ o', prune_order pid o = Ok o' ∧ order_items o' = Some [].
Proof.
  unfold prune_order, order_items. intros Hitems Hall.
  destruct o as [| | | | |?|d]; try done.
  destruct (dict_get d "items") as [[| | | | |l|]|] eqn:Ed; simplify_eq.
  rewrite drop_matching_all by done. simpl. eexists. split; [done|].
  simpl. by rewrite dict_get_set_eq.
Qed.

Lemma prune_orders_lookup pid orders orders' :
  prune_orders pid orders = Ok orders' →
  length orders' = length orders ∧
  ∀ i o', orders' !! i = Some o' →
    ∃ o, orders !! i = Some o ∧ prune_order pid o = Ok o'.
Proof.
  revert orders'. induction orders as [|o rest IH]; intros orders'; simpl.
  - intros [= <-]. split; [done|]. by intros i o'.
  - destruct (prune_order pid o) as [o1|] eqn:Eo; simpl; [|done].
    destruct (prune_orders pid rest) as [rest'|]; simpl; [|done].
    intros [= <-]. destruct (IH rest' eq_refl) as [Hlen Hlk]. split; [simpl; lia|].
    intros [|i] o'; simpl; [intros [= <-]; eauto|apply Hlk].
Qed.

(** C1. When [DELETE /products/<pid>] answers 200, the file holds a document
    in which the products collection has lost a record and no longer holds one
    carrying [pid], and in which no item list of any order has an item that
    references [pid].  No order is dropped by the cascade: the orders
    collection keeps its length, and an order all of whose items referenced
    [pid] stays, with an empty item list. *)
Theorem delete_product_cascade pid f payload f' :
  delete_product pid f = (Resp 200 payload, f') →
  ∃ data data',
    load_db f = (Ok data, ensure_db_exists f) ∧
    load_db f' = (Ok data', f') ∧
    (length (get_list data' "products") < length (get_list data "products"))%nat ∧
    (∀ p, p ∈ get_list data' "products" → ¬ carries_id pid p) ∧
    (∀ o items it, o ∈ get_list data' "orders" → order_items o = Some items →
       it ∈ items → ¬ references pid it) ∧
    length (get_list data' "orders") = length (get_list data "orders") ∧
    (∀ i o items, get_list data "orders" !! i = Some o →
       order_items o = Some items → Forall (references pid) items →
       ∃ o', get_list data' "orders" !! i = Some o' ∧ order_items o' = Some []).
Proof.
  unfold delete_product, not_found. intros E.
  destruct (load_db f) as [[data|ex] f1] eqn:El; [|done].
  pose proof (load_db_ok _ _ _ El) as (Hd & -> & _).
  destruct (drop_matching "id" pid (get_list data "products")) as [kept|] eqn:Ek; [|done].
  destruct (Nat.eqb_spec (length kept) (length (get_list data "products"))) as [|Hlen]; [done|].
  destruct (prune_orders pid (get_list data "orders")) as [orders'|] eqn:Eo; [|done].
  simplify_eq.
  destruct (prune_orders_lookup _ _ _ Eo) as [Hlen' Hlk].
  exists data, (set_list (set_list data "products" kept) "orders" orders').
  split; [done|]. split; [by apply load_db_saved_list, set_list_document|].
  rewrite get_list_set_ne, !get_list_set_eq by done.
  split; [pose proof (drop_matching_length _ _ _ _ Ek); lia|].
  split; [intros p Hp; by destruct (drop_matching_elem _ _ _ _ _ Ek Hp)|].
  split.
  { intros o items it Ho Hitems Hit.
    apply list_elem_of_lookup in Ho as [i Hi].
    destruct (Hlk _ _ Hi) as (o0 & _ & Hp). by eapply prune_order_items. }
  split; [done|].
  intros i o items Hi Hitems Hall.
  destruct (prune_order_emptied pid o items Hitems Hall) as (o' & Hp & Hempty).
  destruct (orders' !! i) as [o1|] eqn:E1.
  - destruct (Hlk _ _ E1) as (o0 & Hi0 & Hp0). simplify_eq.
    exists o'. split; [congruence|done].
  - apply lookup_ge_None in E1. apply lookup_lt_Some in Hi. lia.
Qed.

End Cascade.

Section CascadeInstance.
#[local] Existing Instance AsciiRuntime.runtime.

(** Deleting the notebook of the shop leaves Fatima's order without items. *)
Lemma delete_product_cascade_witness :
  let f' := Stored (Shop.document [] [Shop.order "o1" []]) in
  delete_product "p1" Shop.shop = (Resp 200 (JDict [("deleted", JStr "p1")]), f') ∧
  ∃ data data',
    load_db Shop.shop = (Ok data, ensure_db_exists Shop.shop) ∧
    load_db f' = (Ok data', f') ∧
    (length (get_list data' "products") < length (get_list data "products"))%nat ∧
    (∀ p, p ∈ get_list data' "products" → ¬ carries_id "p1" p) ∧
    (∀ o items it, o ∈ get_list data' "orders" → order_items o = Some items →
       it ∈ items → ¬ references "p1" it) ∧
    length (get_list data' "orders") = length (get_list data "orders") ∧
    (∀ i o items, get_list data "orders" !! i = Some o →
       order_items o = Some items → Forall (references "p1") items →
       ∃ o', get_list data' "orders" !! i = Some o' ∧ order_items o' = Some []).
Proof.
  split; [reflexivity|].
  exact (delete_product_cascade "p1" Shop.shop _ _ eq_refl).
Defined.

End CascadeInstance.

(** ** Rejected writes *)

Section Rejected.
Context `{PyRuntime}.

Lemma create_product_400 e raw f payload f' :
  create_product e raw f = (Resp 400 payload, f') → f' = f.
Proof.
  unfold create_product, bad_request. intros E.
  repeat case_match; simplify_eq; try done.
  by eapply indexed_file_stored.
Qed.

Lemma update_product_400 pid raw f payload f' :
  update_product pid raw f = (Resp 400 payload, f') → f' = f.
Proof.
  unfold update_product, bad_request, not_found. intros E.
  destruct (load_db f) as [[data|ex] f1] eqn:El; [|done].
  destruct (index_by_id (get_list data "products") !! pid) as [j|] eqn:Ej; [|done].
  pose proof (indexed_file_stored _ _ _ _ _ _ El Ej) as ->.
  repeat case_match; by simplify_eq.
Qed.

Lemma delete_product_400 pid f payload f' :
  delete_product pid f = (Resp 400 payload, f') → False.
Proof.
  unfold delete_product, not_found. intros E. repeat case_match; simplify_eq.
Qed.

Lemma create_order_400 e raw f payload f' :
  create_order e raw f = (Resp 400 payload, f') →
  f' = f ∨ (f = Missing ∨ f = Blank) ∧ f' = Stored empty_doc.
Proof.
  unfold create_order, bad_request. intros E.
  destruct (py_truthy _); simpl in E; [|simplify_eq; by left].
  destruct (nonempty_list _) as [items|]; [|simplify_eq; by left].
  destruct (load_db f) as [[data|ex] f1] eqn:El; [|done].
  apply load_db_file in El as ->.
  assert (f' = ensure_db_exists f) as -> by (repeat case_match; by simplify_eq).
  destruct (ensure_db_exists_cases f) as [(_ & _ & ->)|[? ->]]; [by left|by right].
Qed.

Lemma update_order_400 oid raw f payload f' :
  update_order oid raw f = (Resp 400 payload, f') → f' = f.
Proof.
  unfold update_order, finish_update_order, bad_request, not_found. intros E.
  destruct (load_db f) as [[data|ex] f1] eqn:El; [|done].
  destruct (index_by_id (get_list data "orders") !! oid) as [j|] eqn:Ej; [|done].
  pose proof (indexed_file_stored _ _ _ _ _ _ El Ej) as ->.
  repeat case_match; by simplify_eq.
Qed.

Lemma delete_order_400 oid f payload f' :
  delete_order oid f = (Resp 400 payload, f') → False.
Proof.
  unfold delete_order, not_found. intros E. repeat case_match; simplify_eq.
Qed.

(** C2, amended.  A write request that is answered 400 saves nothing: the file
    is left exactly as the request found it, with one exception, a
    create-order request rejected after [load_db] has run on an absent or
    blank file, which leaves the file [load_db] initialised,
    [{products: [], orders: []}].  In every case [load_db] answers after the
    request what it answered before.  For update-order the file is always
    left as found, whatever fields the request supplied next to the one that
    was rejected. *)
Theorem bad_request_saves_nothing op f payload f' :
  run_write op f = (Resp 400 payload, f') →
  (f' = f ∨
   (∃ e raw, op = CreateOrder e raw) ∧ (f = Missing ∨ f = Blank) ∧
   f' = Stored empty_doc) ∧
  (f ≠ Missing → f ≠ Blank → f' = f) ∧
  ((∀ e raw, op ≠ CreateOrder e raw) → f' = f) ∧
  load_db f' = load_db f.
Proof.
  intros E.
  assert (f' = f ∨ (∃ e raw, op = CreateOrder e raw) ∧ (f = Missing ∨ f = Blank) ∧
          f' = Stored empty_doc) as Hcases.
  { destruct op; simpl in E.
    - left. by eapply create_product_400.
    - left. by eapply update_product_400.
    - by destruct (delete_product_400 _ _ _ _ E).
    - destruct (create_order_400 _ _ _ _ _ E) as [?|[? ?]]; [by left|right; eauto].
    - left. by eapply update_order_400.
    - by destruct (delete_order_400 _ _ _ _ E). }
  split; [done|].
  destruct Hcases as [->|((e & raw & ->) & Hf & ->)]; [done|].
  split; [intros; by destruct Hf|].
  split; [intros Hop; by destruct (Hop e raw)|].
  by destruct Hf as [-> | ->].
Qed.

End Rejected.

Section RejectedInstance.
#[local] Existing Instance AsciiRuntime.runtime.

(** The first request a fresh installation receives is an order for a product
    that does not exist: it is answered 400, and the file now exists. *)
Lemma rejected_order_creates_file :
  run_write (CreateOrder Shop.clock (Shop.order_request [Shop.line "ghost" 1])) Missing =
    (bad_request "productId does not exist: ghost", Stored empty_doc) ∧
  Stored empty_doc ≠ Missing.
Proof. split; [reflexivity|discriminate]. Qed.

(** An update of Fatima's order with a new status and an empty item list. *)
Lemma bad_request_saves_nothing_witness :
  let op := UpdateOrder "o1" (JDict [("status", JStr "PAID"); ("items", JList [])]) in
  run_write op Shop.shop = (bad_request "items must be a non-empty list", Shop.shop) ∧
  (Shop.shop = Shop.shop ∨
   (∃ e raw, op = CreateOrder e raw) ∧ (Shop.shop = Missing ∨ Shop.shop = Blank) ∧
   Shop.shop = Stored empty_doc) ∧
  (Shop.shop ≠ Missing → Shop.shop ≠ Blank → Shop.shop = Shop.shop) ∧
  ((∀ e raw, op ≠ CreateOrder e raw) → Shop.shop = Shop.shop) ∧
  load_db Shop.shop = load_db Shop.shop.
Proof.
  intros op. split; [reflexivity|].
  exact (bad_request_saves_nothing op Shop.shop _ Shop.shop eq_refl).
Defined.

End RejectedInstance.

(** ** The item loop *)

Section ItemLoop.
Context `{PyRuntime}.

(** One invalid item anywhere in the list makes the loop reject the list. *)
Lemma validate_items_rejects products items :
  Exists (λ it, ¬ item_valid products it) items →
  ∃ msg, validate_items (index_by_id products) items = Rejected msg.
Proof.
  induction items as [|it rest IH]; intros Hbad; [by apply Exists_nil in Hbad|].
  simpl. destruct it as [| | | | | |d]; eauto.
  fold (item_product_id d).
  destruct (String.eqb_spec (item_product_id d) "") as [|Hne]; eauto.
  destruct (index_by_id products !! item_product_id d) as [j|] eqn:Ej; eauto.
  destruct (py_int (dict_get_or d "qty" JNull)) as [q|] eqn:Eq; eauto.
  destruct (Z.leb_spec q 0); eauto.
  apply Exists_cons in Hbad as [Hhead|Hrest].
  - exfalso. apply Hhead. exists d, q. repeat split; try done.
    apply index_by_id_is_Some. eauto.
  - destruct (IH Hrest) as [msg ->]. eauto.
Qed.

(** A list of valid items is accepted, each item in its normal form. *)
Lemma validate_items_accepts products items :
  Forall (item_valid products) items →
  validate_items (index_by_id products) items = Accepted (map normalized_item items).
Proof.
  induction 1 as [|it rest (d & q & -> & Hne & Hid & Hq & Hpos) _ IH]; simpl; [done|].
  fold (item_product_id d).
  destruct (String.eqb_spec (item_product_id d) "") as [|_]; [done|].
  apply index_by_id_is_Some in Hid as [j ->]. rewrite Hq.
  destruct (Z.leb_spec q 0); [lia|]. by rewrite IH.
Qed.

(** C3. Against a file that loads, a create-order or update-order request
    whose [items] list has an item that is not valid (not an object, or a
    product id that is empty after stripping or is not the id of a product, or
    a [qty] that does not convert to an integer greater than zero) is answered
    400, by create-order always and by update-order whenever the order exists;
    nothing is saved: the file is left as the request found it, or as
    [load_db] initialised it. *)
Theorem invalid_item_rejects_request e oid raw f data f1 items :
  load_db f = (Ok data, f1) →
  dict_get (get_body raw) "items" = Some (JList items) →
  Exists (λ it, ¬ item_valid (get_list data "products") it) items →
  (∃ payload f', create_order e raw f = (Resp 400 payload, f') ∧
                 (f' = f ∨ f' = ensure_db_exists f)) ∧
  (has_id (get_list data "orders") oid →
   ∃ payload, update_order oid raw f = (Resp 400 payload, f)).
Proof.
  intros El Hitems Hbad.
  destruct (validate_items_rejects _ _ Hbad) as [msg Hrej].
  pose proof (load_db_file _ _ _ El) as Hf1.
  destruct items as [|it rest]; [by apply Exists_nil in Hbad|].
  split.
  - unfold create_order, bad_request, dict_get_or. rewrite Hitems.
    destruct (py_truthy _); cbn [negb nonempty_list]; [|eauto].
    rewrite El, Hrej. subst f1. eauto.
  - intros Hoid. apply index_by_id_is_Some in Hoid as [j Hj].
    pose proof (indexed_file_stored _ _ _ _ _ _ El Hj) as ->.
    unfold update_order, bad_request. rewrite El, Hj, Hitems.
    cbn [nonempty_list]. rewrite Hrej. eauto.
Qed.

End ItemLoop.

Section ItemLoopInstance.
#[local] Existing Instance AsciiRuntime.runtime.

Lemma ghost_not_valid products :
  ¬ has_id products "ghost" → ¬ item_valid products (Shop.line "ghost" 1).
Proof. intros Hno (d & q & [= <-] & _ & Hid & _). by apply Hno. Qed.

(** An order for two notebooks and one product that does not exist. *)
Lemma invalid_item_rejects_request_witness :
  let raw := Shop.order_request [Shop.line "p1" 2; Shop.line "ghost" 1] in
  let data := [("products", JList [Shop.notebook "p1"]);
               ("orders", JList [Shop.order "o1" [Shop.line "p1" 2]])] in
  load_db Shop.shop = (Ok data, Shop.shop) ∧
  dict_get (get_body raw) "items" =
    Some (JList [Shop.line "p1" 2; Shop.line "ghost" 1]) ∧
  (∃ payload f', create_order Shop.clock raw Shop.shop = (Resp 400 payload, f') ∧
                 (f' = Shop.shop ∨ f' = ensure_db_exists Shop.shop)) ∧
  (has_id (get_list data "orders") "o1" →
   ∃ payload, update_order "o1" raw Shop.shop = (Resp 400 payload, Shop.shop)).
Proof.
  intros raw data. split; [reflexivity|]. split; [reflexivity|].
  apply (invalid_item_rejects_request Shop.clock "o1" raw Shop.shop data Shop.shop
           [Shop.line "p1" 2; Shop.line "ghost" 1]); [reflexivity|reflexivity|].
  apply Exists_cons_tl, Exists_cons_hd, ghost_not_valid.
  intros (p & Hp & Hk). apply list_elem_of_singleton in Hp as ->. discriminate Hk.
Defined.

End ItemLoopInstance.

(** ** Ids of new records *)

Section Ids.
Context `{PyRuntime}.

Lemma stored_loaded c f data f1 :
  load_db f = (Ok data, f1) → stored c f = get_list data (collection_key c).
Proof. intros El. unfold stored. by rewrite El. Qed.

Lemma stored_saved c data k l :
  is_document data →
  stored c (save_db (JDict (set_list data k l))) =
  get_list (set_list data k l) (collection_key c).
Proof. intros Hd. unfold stored. by rewrite load_db_saved_list. Qed.

Lemma has_id_loaded c f id :
  has_id (stored c f) id →
  ∃ data j, load_db f = (Ok data, f) ∧
            index_by_id (get_list data (collection_key c)) !! id = Some j.
Proof.
  unfold stored. intros Hid.
  destruct (load_db f) as [[data|ex] f1] eqn:El.
  - apply index_by_id_is_Some in Hid as [j Hj].
    pose proof (indexed_file_stored _ _ _ _ _ _ El Hj) as ->. eauto.
  - destruct Hid as (x & Hx & _). by apply elem_of_nil in Hx.
Qed.



End Ids.

Section IdsInstance.
#[local] Existing Instance AsciiRuntime.runtime.



End IdsInstance.

(** ** Loading the document *)

Lemma get_list_repair_eq data k :
  get_list (repair_key data k) k =
  match dict_get data k with Some (JList l) => l | _ => [] end.
Proof.
  unfold get_list, repair_key.
  destruct (dict_get data k) as [v|] eqn:E.
  - destruct v; simpl; rewrite ?dict_get_set_eq, ?E; done.
  - by rewrite dict_get_set_eq.
Qed.

Lemma get_list_repair_ne data k k' :
  k ≠ k' → get_list (repair_key data k) k' = get_list data k'.
Proof. intros. unfold get_list. by rewrite repair_key_other. Qed.

(** The parsed content [[]] is well-formed JSON that has no ["products"] key,
    and [load_db] raises on it instead of handing out a document. *)
Lemma load_db_rejects_array :
  read_json (Stored (JList [])) = Ok (JList []) ∧
  load_db (Stored (JList [])) = (Raise TypeError, Stored (JList [])).
Proof. split; reflexivity. Qed.

(** C5, amended.  What [load_db] does in each state of the file.
    - Absent or blank: the file is initialised to [{products: [], orders: []}]
      and that document is returned.
    - Text that is not JSON: [load_db] raises, the file stays as it is.
    - A JSON object: a document is returned in which both collections are
      lists; each is the list the object has under that key, or the empty list
      when the key is absent or holds something else; every other key is
      returned as found; the file stays as it is.
    - JSON that is not an object: [load_db] raises, the file stays as it is. *)
Theorem load_db_cases f :
  match f with
  | Missing | Blank =>
      load_db f = (Ok [("products", JList []); ("orders", JList [])], Stored empty_doc)
  | Corrupt => load_db f = (Raise JSONDecodeError, f)
  | Stored (JDict d) =>
      ∃ data,
        load_db f = (Ok data, f) ∧
        is_document data ∧
        get_list data "products" =
          match dict_get d "products" with Some (JList l) => l | _ => [] end ∧
        get_list data "orders" =
          match dict_get d "orders" with Some (JList l) => l | _ => [] end ∧
        ∀ k, k ≠ "products" → k ≠ "orders" → dict_get data k = dict_get d k
  | Stored _ => load_db f = (Raise TypeError, f)
  end.
Proof.
  destruct f as [| | |v]; try reflexivity.
  destruct v; try reflexivity.
  eexists. split; [reflexivity|]. split; [apply repair_is_document|].
  split; [by rewrite get_list_repair_ne, get_list_repair_eq|].
  split.
  - rewrite get_list_repair_eq, repair_key_other; done.
  - intros k ? ?. by rewrite !repair_key_other.
Qed.

(** ** Updating a product *)

Section UpdateProductInstance.
#[local] Existing Instance AsciiRuntime.runtime.

(** C6.  [POST /products] refuses the empty name; [PUT /products/p1] with the
    same empty name is answered 200 and saves the notebook with the name [""].
    A price that is not a number is refused by the same handler. *)
Theorem update_product_accepts_empty_name :
  let renamed := JDict [("id", JStr "p1"); ("name", JStr "");
                        ("price", JFloat Shop.price_12_5);
                        ("createdAt", JStr "2024-05-01T10:00:00Z")] in
  create_product Shop.clock
    (JDict [("name", JStr ""); ("price", JFloat Shop.price_12_5)]) Shop.shop =
    (bad_request "Field 'name' is required", Shop.shop) ∧
  update_product "p1" (JDict [("name", JStr "")]) Shop.shop =
    (Resp 200 renamed,
     Stored (Shop.document [renamed] [Shop.order "o1" [Shop.line "p1" 2]])) ∧
  update_product "p1" (JDict [("price", JStr "cheap")]) Shop.shop =
    (bad_request "Field 'price' must be a number", Shop.shop).
Proof. repeat split; reflexivity. Qed.

End UpdateProductInstance.

(** ** Create, then get *)

Section RoundTrip.
Context `{PyRuntime}.

(** A record appended to a collection and saved is what a get by its id
    returns. *)
Lemma get_after_append c data items r id :
  is_document data →
  index_key r = Some id →
  let f' := save_db (JDict (set_list data (collection_key c) (items ++ [r]))) in
  get c id f' = (Resp 200 r, f').
Proof.
  intros Hd Hk f'. subst f'.
  destruct c; simpl; unfold get_product, get_order;
    rewrite load_db_saved_list by done; rewrite get_list_set_eq;
    rewrite index_by_id_lookup, last_index_snoc, decide_True by done;
    unfold deref; by rewrite list_lookup_middle.
Qed.

(** C7. A create that answers 201, followed at once by a get on the id of the
    record it returned, answers 200 with that same record, and the get leaves
    the file as the create wrote it. *)
Theorem create_then_get c e raw f r f' :
  create c e raw f = (Resp 201 r, f') →
  ∃ id, record_id r = Some (JStr id) ∧ get c id f' = (Resp 200 r, f').
Proof.
  destruct c; simpl; unfold create_product, create_order, bad_request; intros E.
  - repeat case_match; simplify_eq.
    match goal with Hl : load_db _ = (Ok _, _) |- _ =>
      apply load_db_ok in Hl as (Hd & _) end.
    eexists; split; [reflexivity|].
    by apply (get_after_append Products).
  - repeat case_match; simplify_eq.
    match goal with Hl : load_db _ = (Ok _, _) |- _ =>
      apply load_db_ok in Hl as (Hd & _) end.
    eexists; split; [reflexivity|].
    by apply (get_after_append Orders).
Qed.

End RoundTrip.

Section RoundTripInstance.
#[local] Existing Instance AsciiRuntime.runtime.

Lemma create_then_get_witness :
  create Products Shop.clock Shop.notebook_request Missing =
    (Resp 201 (Shop.notebook "p-9f3b6c1e"),
     Stored (Shop.document [Shop.notebook "p-9f3b6c1e"] [])) ∧
  ∃ id, record_id (Shop.notebook "p-9f3b6c1e") = Some (JStr id) ∧
        get Products id (Stored (Shop.document [Shop.notebook "p-9f3b6c1e"] [])) =
          (Resp 200 (Shop.notebook "p-9f3b6c1e"),
           Stored (Shop.document [Shop.notebook "p-9f3b6c1e"] [])).
Proof.
  split; [reflexivity|].
  apply (create_then_get Products Shop.clock Shop.notebook_request Missing).
  reflexivity.
Defined.

End RoundTripInstance.

(** ** Updating an order *)

Section UpdateOrder.
Context `{PyRuntime}.

(** One assignment [o_index[oid][k] = v] through the index. *)
Lemma assign_through_index oid j orders d k v :
  k ≠ "id" →
  last_index oid orders = Some j → orders !! j = Some (JDict d) →
  last_index oid (alter (record_set k v) j orders) = Some j ∧
  alter (record_set k v) j orders !! j = Some (JDict (dict_set d k v)).
Proof.
  intros Hk Hj Hr. split.
  - rewrite last_index_alter; [done|]. intros r. by apply index_key_record_set.
  - rewrite list_lookup_alter, decide_True by done. by rewrite Hr.
Qed.

(** The tail of [update_order] stores the record the index points to and
    answers with it. *)
Lemma finish_update_order_stored oid j data orders f1 r r' f' :
  is_document data →
  last_index oid orders = Some j → orders !! j = Some r →
  finish_update_order oid j data orders f1 = (Resp 200 r', f') →
  r' = r ∧ get_order oid f' = (Resp 200 r', f').
Proof.
  intros Hd Hj Hr. unfold finish_update_order, deref. rewrite Hr. simpl.
  destruct (write_back orders oid r) as [orders'|] eqn:Ew; [|done].
  intros [= <- <-]. split; [done|].
  destruct (write_back_last _ _ _ _ _ Hj Hr Ew) as (Hj' & Hr' & _).
  unfold get_order. rewrite load_db_saved_list by done. rewrite get_list_set_eq.
  rewrite index_by_id_lookup, Hj'. unfold deref. by rewrite Hr'.
Qed.

(** [update_order], with its two conditional assignments named. *)
Lemma update_order_eq oid raw f :
  update_order oid raw f =
  match load_db f with
  | (Raise ex, f1) => (Crash ex, f1)
  | (Ok data, f1) =>
      match index_by_id (get_list data "orders") !! oid with
      | None => (not_found "order not found", f1)
      | Some j =>
          let orders :=
            assign_str "customer" (dict_get (get_body raw) "customer") j
              (assign_str "status" (dict_get (get_body raw) "status") j
                 (get_list data "orders")) in
          match dict_get (get_body raw) "items" with
          | Some v =>
              match nonempty_list v with
              | None => (bad_request "items must be a non-empty list", f1)
              | Some items =>
                  match validate_items (index_by_id (get_list data "products")) items with
                  | Rejected msg => (bad_request msg, f1)
                  | Accepted new_items =>
                      finish_update_order oid j data
                        (alter (record_set "items" (JList new_items)) j orders) f1
                  end
              end
          | None => finish_update_order oid j data orders f1
          end
      end
  end.
Proof. reflexivity. Qed.

Lemma assign_str_spec oid j records d k ov :
  k ≠ "id" →
  last_index oid records = Some j → records !! j = Some (JDict d) →
  ∃ d',
    last_index oid (assign_str k ov j records) = Some j ∧
    assign_str k ov j records !! j = Some (JDict d') ∧
    (∀ k', k' ≠ k → dict_get d' k' = dict_get d k') ∧
    dict_get d' k = match ov with
                    | Some v => Some (JStr (py_str v))
                    | None => dict_get d k
                    end.
Proof.
  intros Hk Hj Hr. destruct ov as [v|]; cbn [assign_str].
  - destruct (assign_through_index oid j records d k (JStr (py_str v)) Hk Hj Hr)
      as [Hj' Hr'].
    exists (dict_set d k (JStr (py_str v))). split; [done|]. split; [done|].
    split; [intros k' Hne; by rewrite dict_get_set_ne|by rewrite dict_get_set_eq].
  - by exists d.
Qed.

(** C8. When [PUT /orders/<oid>] answers 200, the record it answers with is
    the record the index held for [oid], changed in the supplied fields only:
    [status] and [customer] become the string form of the supplied value when
    one is supplied and keep their value otherwise; [items], when supplied, is
    a non-empty list the item loop accepted and the field becomes exactly the
    list that loop produced, and keeps its value otherwise; every other field,
    [id] and [createdAt] among them, keeps its value.  That record is the one
    the file then holds for [oid]. *)
Theorem update_order_frame oid raw f r' f' :
  update_order oid raw f = (Resp 200 r', f') →
  ∃ data j r,
    load_db f = (Ok data, f) ∧
    index_by_id (get_list data "orders") !! oid = Some j ∧
    get_list data "orders" !! j = Some r ∧
    (∀ k, k ≠ "status" → k ≠ "customer" → k ≠ "items" → field k r' = field k r) ∧
    field "id" r' = field "id" r ∧
    field "createdAt" r' = field "createdAt" r ∧
    field "status" r' =
      match dict_get (get_body raw) "status" with
      | Some v => Some (JStr (py_str v))
      | None => field "status" r
      end ∧
    field "customer" r' =
      match dict_get (get_body raw) "customer" with
      | Some v => Some (JStr (py_str v))
      | None => field "customer" r
      end ∧
    match dict_get (get_body raw) "items" with
    | Some v =>
        ∃ items new_items,
          nonempty_list v = Some items ∧
          validate_items (index_by_id (get_list data "products")) items
            = Accepted new_items ∧
          field "items" r' = Some (JList new_items)
    | None => field "items" r' = field "items" r
    end ∧
    get_order oid f' = (Resp 200 r', f').
Proof.
  intros E. rewrite update_order_eq in E. unfold not_found, bad_request in E.
  destruct (load_db f) as [[data|ex] f1] eqn:El; [|discriminate E].
  destruct (index_by_id (get_list data "orders") !! oid) as [j|] eqn:Ej;
    [|discriminate E].
  pose proof (indexed_file_stored _ _ _ _ _ _ El Ej) as ->.
  pose proof (load_db_ok _ _ _ El) as (Hd & _).
  pose proof Ej as Hj. rewrite index_by_id_lookup in Hj.
  destruct (last_index_Some _ _ _ Hj) as (r & Hr & Hk).
  assert (∃ d, r = JDict d) as [d ->] by (destruct r; try discriminate Hk; eauto).
  exists data, j, (JDict d). do 3 (split; [done|]).
  cbv zeta in E.
  destruct (assign_str_spec oid j _ d "status" (dict_get (get_body raw) "status")
              ltac:(done) Hj Hr) as (d1 & Hj1 & Hr1 & Hframe1 & Hstatus1).
  destruct (assign_str_spec oid j _ d1 "customer" (dict_get (get_body raw) "customer")
              ltac:(done) Hj1 Hr1) as (d2 & Hj2 & Hr2 & Hframe2 & Hcustomer2).
  set (orders2 := assign_str "customer" _ j _) in *. clearbody orders2.
  assert (∀ k, k ≠ "status" → k ≠ "customer" → dict_get d2 k = dict_get d k) as Hframe.
  { intros k ? ?. by rewrite Hframe2, Hframe1. }
  assert (dict_get d2 "status" =
            match dict_get (get_body raw) "status" with
            | Some v => Some (JStr (py_str v))
            | None => dict_get d "status"
            end) as Hstatus.
  { by rewrite Hframe2, Hstatus1. }
  assert (dict_get d2 "customer" =
            match dict_get (get_body raw) "customer" with
            | Some v => Some (JStr (py_str v))
            | None => dict_get d "customer"
            end) as Hcustomer.
  { rewrite Hcustomer2. destruct (dict_get (get_body raw) "customer"); [done|].
    by rewrite Hframe1. }
  clear Hframe1 Hframe2 Hstatus1 Hcustomer2 Hj1 Hr1.
  destruct (dict_get (get_body raw) "items") as [v|] eqn:Ei.
  - destruct (nonempty_list v) as [items|] eqn:En; [|discriminate E].
    destruct (validate_items _ items) as [msg|new_items] eqn:Ev; [discriminate E|].
    destruct (assign_through_index oid j _ d2 "items" (JList new_items)
                ltac:(done) Hj2 Hr2) as [Hj3 Hr3].
    destruct (finish_update_order_stored _ _ _ _ _ _ _ _ Hd Hj3 Hr3 E) as [-> Hget].
    cbn [field].
    split; [intros k ? ? ?; rewrite dict_get_set_ne by done; by apply Hframe|].
    split; [rewrite dict_get_set_ne by done; by apply Hframe|].
    split; [rewrite dict_get_set_ne by done; by apply Hframe|].
    split; [by rewrite dict_get_set_ne by done|].
    split; [by rewrite dict_get_set_ne by done|].
    split; [|done].
    exists items, new_items. by rewrite dict_get_set_eq.
  - destruct (finish_update_order_stored _ _ _ _ _ _ _ _ Hd Hj2 Hr2 E) as [-> Hget].
    cbn [field].
    split; [intros k ? ? ?; by apply Hframe|].
    split; [by apply Hframe|].
    split; [by apply Hframe|].
    split; [done|]. split; [done|]. split; [by apply Hframe|done].
Qed.

End UpdateOrder.

Section UpdateOrderInstance.
#[local] Existing Instance AsciiRuntime.runtime.

(** Fatima's order is marked paid and its items replaced by three notebooks. *)
Lemma update_order_frame_witness :
  let raw := JDict [("status", JStr "PAID");
                    ("items", JList [JDict [("productId", JStr " p1 "); ("qty", JStr "3")]])] in
  let r' := JDict [("id", JStr "o1"); ("customer", JStr "Fatima");
                   ("items", JList [Shop.line "p1" 3]); ("status", JStr "PAID");
                   ("createdAt", JStr "2024-05-01T10:00:00Z")] in
  let f' := Stored (Shop.document [Shop.notebook "p1"] [r']) in
  update_order "o1" raw Shop.shop = (Resp 200 r', f') ∧
  ∃ data j r,
    load_db Shop.shop = (Ok data, Shop.shop) ∧
    index_by_id (get_list data "orders") !! "o1" = Some j ∧
    get_list data "orders" !! j = Some r ∧
    (∀ k, k ≠ "status" → k ≠ "customer" → k ≠ "items" → field k r' = field k r) ∧
    field "id" r' = field "id" r ∧
    field "createdAt" r' = field "createdAt" r ∧
    field "status" r' =
      match dict_get (get_body raw) "status" with
      | Some v => Some (JStr (py_str v))
      | None => field "status" r
      end ∧
    field "customer" r' =
      match dict_get (get_body raw) "customer" with
      | Some v => Some (JStr (py_str v))
      | None => field "customer" r
      end ∧
    match dict_get (get_body raw) "items" with
    | Some v =>
        ∃ items new_items,
          nonempty_list v = Some items ∧
          validate_items (index_by_id (get_list data "products")) items
            = Accepted new_items ∧
          field "items" r' = Some (JList new_items)
    | None => field "items" r' = field "items" r
    end ∧
    get_order "o1" f' = (Resp 200 r', f').
Proof.
  intros raw r' f'. split; [reflexivity|].
  exact (update_order_frame "o1" raw Shop.shop r' f' eq_refl).
Defined.

End UpdateOrderInstance.

(** ** Reads *)

Section Reads.
Context `{PyRuntime}.

(** A read leaves the file as [load_db] leaves it. *)
Lemma run_read_file op f : (run_read op f).2 = ensure_db_exists f.
Proof.
  destruct op; simpl;
    unfold list_products, get_product, list_orders, get_order;
    destruct (load_db f) as [[data|ex] f1] eqn:El;
    apply load_db_file in El as ->; simpl; try done;
    by case_match.
Qed.

(** A read answers the same before and after [load_db] has initialised the
    file. *)
Lemma run_read_ensure op f : run_read op (ensure_db_exists f) = run_read op f.
Proof.
  destruct op; simpl;
    unfold list_products, get_product, list_orders, get_order;
    by rewrite load_db_idem.
Qed.

Lemma run_reads_file ops f :
  run_reads ops f = match ops with [] => f | _ => ensure_db_exists f end.
Proof.
  revert f. induction ops as [|op rest IH]; intros f; simpl; [done|].
  rewrite IH, run_read_file. destruct rest; [done|apply ensure_db_exists_idem].
Qed.

(** C9, amended.  After any sequence of GET requests the file is what it was,
    unless it was absent or blank, in which case the first GET of the sequence
    has initialised it to [{products: [], orders: []}], as [load_db] does, and
    the later ones have left that alone.  In every case [load_db] and each GET
    request answer after the sequence what they answered before it, and a
    second run of the sequence changes nothing more. *)
Theorem reads_preserve_store ops f :
  run_reads ops f = match ops with [] => f | _ => ensure_db_exists f end ∧
  (f ≠ Missing → f ≠ Blank → run_reads ops f = f) ∧
  ((f = Missing ∨ f = Blank) → ops ≠ [] → run_reads ops f = Stored empty_doc) ∧
  load_db (run_reads ops f) = load_db f ∧
  (∀ op, run_read op (run_reads ops f) = run_read op f) ∧
  run_reads ops (run_reads ops f) = run_reads ops f.
Proof.
  rewrite !run_reads_file. split; [done|].
  destruct ops as [|op rest]; [repeat split; done|].
  split; [intros; by destruct f|].
  split; [intros [-> | ->] _; done|].
  split; [apply load_db_idem|].
  split; [intros op'; apply run_read_ensure|].
  apply ensure_db_exists_idem.
Qed.

End Reads.

Section ReadsInstance.
#[local] Existing Instance AsciiRuntime.runtime.

(** One GET on an absent file creates the file. *)
Lemma get_creates_missing_file :
  run_reads [ListProducts] Missing = Stored empty_doc ∧
  run_reads [ListProducts] Missing ≠ Missing.
Proof. split; [reflexivity|discriminate]. Qed.

Lemma reads_preserve_store_witness :
  let ops := [ListProducts; GetProduct "p1"; ListOrders; GetOrder "o1"; GetOrder "o2"] in
  (Shop.shop ≠ Missing ∧ Shop.shop ≠ Blank) ∧
  run_reads ops Shop.shop = Shop.shop.
Proof.
  intros ops. split; [split; discriminate|].
  apply (reads_preserve_store ops Shop.shop); discriminate.
Defined.

End ReadsInstance.

(** ** Generated ids *)

Lemma hex_digit_is_hex n : is_hex_digit (hex_digit (n mod 16)%N) = true.
Proof.
  assert (N.to_nat (n mod 16) < 16)%nat as Hlt.
  { pose proof (N.mod_upper_bound n 16). lia. }
  unfold hex_digit. destruct (N.to_nat (n mod 16)) as [|k]; [reflexivity|].
  do 15 (destruct k as [|k]; [reflexivity|]). lia.
Qed.

Lemma hex_digits_length count n acc :
  String.length (hex_digits count n acc) = (count + String.length acc)%nat.
Proof.
  revert n acc. induction count as [|count IH]; intros n acc; simpl; [done|].
  rewrite IH. simpl. lia.
Qed.

Lemma hex_digits_is_hex count n acc :
  is_hex acc = true → is_hex (hex_digits count n acc) = true.
Proof.
  revert n acc. induction count as [|count IH]; intros n acc Hacc; simpl; [done|].
  apply IH. unfold is_hex. simpl. rewrite hex_digit_is_hex. exact Hacc.
Qed.

Lemma prefix_length n s :
  (n ≤ String.length s)%nat → String.length (substring 0 n s) = n.
Proof.
  revert s. induction n as [|n IH]; intros s Hn; [by destruct s|].
  destruct s as [|c s]; simpl in *; [lia|]. rewrite IH; [done|lia].
Qed.

Lemma prefix_is_hex n s : is_hex s = true → is_hex (substring 0 n s) = true.
Proof.
  revert s. induction n as [|n IH]; intros s Hs; [by destruct s|].
  destruct s as [|c s]; [done|]. unfold is_hex in *. simpl in *.
  apply andb_true_iff in Hs as [Hc Hs]. rewrite Hc. simpl. by apply IH.
Qed.

(** The suffix of a generated id: eight hexadecimal digits. *)
Lemma uuid_suffix u :
  String.length (substring 0 8 (uuid_hex u)) = 8%nat ∧
  is_hex (substring 0 8 (uuid_hex u)) = true.
Proof.
  split.
  - apply prefix_length. unfold uuid_hex. rewrite hex_digits_length. simpl. lia.
  - apply prefix_is_hex, hex_digits_is_hex. reflexivity.
Qed.

Lemma append_empty_r s : s +:+ "" = s.
Proof.
  induction s as [|c s IH]; [reflexivity|].
  change (String c (s +:+ "") = String c s). by rewrite IH.
Qed.

Lemma append_assoc s t u : (s +:+ t) +:+ u = s +:+ (t +:+ u).
Proof.
  induction s as [|c s IH]; [reflexivity|].
  change (String c ((s +:+ t) +:+ u) = String c (s +:+ (t +:+ u))).
  by rewrite IH.
Qed.

Lemma hex_digits_acc count n acc :
  hex_digits count n acc = hex_digits count n "" +:+ acc.
Proof.
  revert n acc. induction count as [|count IH]; intros n acc; simpl; [done|].
  rewrite (IH _ (String _ acc)), (IH _ (String _ "")). by rewrite append_assoc.
Qed.

Lemma hex_digits_split high low n :
  hex_digits (high + low) n "" =
  hex_digits high (n / 16 ^ N.of_nat low)%N "" +:+ hex_digits low n "".
Proof.
  revert n. induction low as [|low IH]; intros n.
  - rewrite Nat.add_0_r. simpl. by rewrite N.div_1_r, append_empty_r.
  - rewrite Nat.add_succ_r. simpl hex_digits.
    rewrite (hex_digits_acc (high + low)), (hex_digits_acc low), IH.
    rewrite append_assoc. do 2 f_equal.
    rewrite Nat2N.inj_succ, N.pow_succ_r', N.Div0.div_div. done.
Qed.

Lemma prefix_of_append s t : substring 0 (String.length s) (s +:+ t) = s.
Proof.
  induction s as [|c s IH]; [by destruct t|].
  change (String c (substring 0 (String.length s) (s +:+ t)) = String c s).
  by rewrite IH.
Qed.

(** The suffix of a generated id is the hexadecimal form of the draw without
    its 96 low bits. *)
Lemma uuid_suffix_value u :
  substring 0 8 (uuid_hex u) = hex_digits 8 (u / 2 ^ 96)%N "".
Proof.
  unfold uuid_hex. rewrite (hex_digits_split 8 24).
  change (16 ^ N.of_nat 24)%N with (2 ^ 96)%N.
  rewrite <- (prefix_of_append (hex_digits 8 (u / 2 ^ 96)%N "")
                               (hex_digits 24 u "")) at 2.
  by rewrite hex_digits_length.
Qed.

Lemma str_of_Z_nonempty z : str_of_Z z ≠ "".
Proof.
  unfold str_of_Z. destruct (Z.to_int z) as [d|d]; simpl; [|done].
  unfold NilZero.string_of_uint. by destruct d.
Qed.

Section Generated.
Context `{PyRuntime}.

(** An absent id, [null], the empty string, [0] and [false] are all passed over
    by [body.get("id") or ...]. *)
Lemma falsy_id_values body :
  dict_get body "id" = None ∨ dict_get body "id" = Some JNull ∨
  dict_get body "id" = Some (JStr "") ∨ dict_get body "id" = Some (JInt 0) ∨
  dict_get body "id" = Some (JBool false) →
  supplied_id (JDict body) = None.
Proof. unfold supplied_id. simpl. intros [->|[->|[->|[->| ->]]]]; reflexivity. Qed.

Lemma no_supplied_id_or raw w :
  supplied_id raw = None → py_or (dict_get_or (get_body raw) "id" JNull) w = w.
Proof.
  unfold supplied_id, py_or, dict_get_or.
  destruct (dict_get (get_body raw) "id") as [u|]; [|done].
  by destruct (py_truthy u).
Qed.

(** The string form of a truthy value is not empty. *)
Lemma py_str_truthy v :
  (∀ x, float_repr x ≠ "") → py_truthy v = true → py_str v ≠ "".
Proof.
  intros Hrepr. destruct v as [|b|z|x|s|l|d]; simpl; try done.
  - by destruct b.
  - intros _. apply str_of_Z_nonempty.
  - intros Hs ->. done.
Qed.

Lemma new_id_nonempty v prefix_char prefix e :
  (∀ x, float_repr x ≠ "") →
  py_str (py_or v (JStr (fresh_id (String prefix_char prefix) e))) ≠ "".
Proof.
  intros Hrepr. unfold py_or. destruct (py_truthy v) eqn:Ev.
  - by apply py_str_truthy.
  - done.
Qed.

Lemma generated_id_or c e raw :
  supplied_id raw = None →
  py_str (py_or (dict_get_or (get_body raw) "id" JNull) (JStr (fresh_id (id_prefix c) e)))
  = generated_id c e.
Proof. intros Hnone. by rewrite no_supplied_id_or. Qed.

Lemma with_id_or raw c e w :
  py_or (dict_get_or (get_body (with_id raw (generated_id c e))) "id" JNull) w
  = JStr (generated_id c e).
Proof.
  unfold with_id, dict_get_or. cbn [get_body]. rewrite dict_get_set_eq.
  by destruct c.
Qed.

Lemma with_id_other raw id k default :
  k ≠ "id" →
  dict_get_or (get_body (with_id raw id)) k default = dict_get_or (get_body raw) k default.
Proof.
  intros Hk. unfold with_id, dict_get_or. cbn [get_body].
  by rewrite dict_get_set_ne by done.
Qed.

(** What a create does with the id it settles on. *)
Lemma create_under_id c e raw f id :
  py_str (py_or (dict_get_or (get_body raw) "id" JNull) (JStr (fresh_id (id_prefix c) e)))
  = id →
  (has_id (stored c f) id → ∃ payload, create c e raw f = (Resp 400 payload, f)) ∧
  (∀ r f', create c e raw f = (Resp 201 r, f') →
     record_id r = Some (JStr id) ∧ ¬ has_id (stored c f) id ∧
     stored c f' = stored c f ++ [r]).
Proof.
  intros Hid. split.
  - intros Hpresent. destruct (has_id_loaded _ _ _ Hpresent) as (data & j & El & Hj).
    destruct c; cbn [create collection_key id_prefix] in *.
    + unfold create_product, bad_request.
      destruct (negb (py_truthy _)); [eauto|].
      destruct (is_none _); [eauto|].
      destruct (py_float _); [|eauto].
      rewrite El, Hid, Hj. eauto.
    + unfold create_order, bad_request.
      destruct (negb (py_truthy _)); [eauto|].
      destruct (nonempty_list _); [|eauto].
      rewrite El. destruct (validate_items _ _); [eauto|].
      rewrite Hid, Hj. eauto.
  - intros r f' E. destruct c; cbn [create collection_key id_prefix] in *.
    + unfold create_product, bad_request in E.
      destruct (negb (py_truthy _)); [discriminate E|].
      destruct (is_none _); [discriminate E|].
      destruct (py_float _) as [price_val|]; [|discriminate E].
      destruct (load_db f) as [[data|ex] f1] eqn:El; [|discriminate E].
      rewrite Hid in E.
      destruct (index_by_id _ !! id) eqn:Ej; [discriminate E|].
      injection E as <- <-.
      pose proof (load_db_ok _ _ _ El) as (Hd & _).
      rewrite (stored_loaded Products _ _ _ El). cbn [collection_key].
      split; [reflexivity|]. split.
      { intros Hpresent. apply index_by_id_is_Some in Hpresent as [j Hj]. congruence. }
      rewrite (stored_saved Products) by done. cbn [collection_key].
      by rewrite get_list_set_eq.
    + unfold create_order, bad_request in E.
      destruct (negb (py_truthy _)); [discriminate E|].
      destruct (nonempty_list _); [|discriminate E].
      destruct (load_db f) as [[data|ex] f1] eqn:El; [|discriminate E].
      destruct (validate_items _ _); [discriminate E|].
      rewrite Hid in E.
      destruct (index_by_id _ !! id) eqn:Ej; [discriminate E|].
      injection E as <- <-.
      pose proof (load_db_ok _ _ _ El) as (Hd & _).
      rewrite (stored_loaded Orders _ _ _ El). cbn [collection_key].
      split; [reflexivity|]. split.
      { intros Hpresent. apply index_by_id_is_Some in Hpresent as [j Hj]. congruence. }
      rewrite (stored_saved Orders) by done. cbn [collection_key].
      by rewrite get_list_set_eq.
Qed.

(** A request that is created under one id is created under any other id that
    no record carries: the checks before the id do not look at it. *)
Lemma create_accepts c e raw raw' f r0 f0 id :
  (∀ k, k ≠ "id" → dict_get (get_body raw') k = dict_get (get_body raw) k) →
  create c e raw' f = (Resp 201 r0, f0) →
  py_str (py_or (dict_get_or (get_body raw) "id" JNull) (JStr (fresh_id (id_prefix c) e)))
  = id →
  ¬ has_id (stored c f) id →
  ∃ r f', create c e raw f = (Resp 201 r, f') ∧ record_id r = Some (JStr id).
Proof.
  intros Hsame E' Hid Hfresh.
  assert (∀ k default, k ≠ "id" →
            dict_get_or (get_body raw') k default = dict_get_or (get_body raw) k default)
    as Hsame'.
  { intros k default Hk. unfold dict_get_or. by rewrite Hsame. }
  destruct c; cbn [create collection_key id_prefix] in *.
  - unfold create_product, bad_request in E' |- *.
    rewrite !(Hsame' "name"), !(Hsame' "price") in E' by done.
    destruct (negb (py_truthy _)); [discriminate E'|].
    destruct (is_none _); [discriminate E'|].
    destruct (py_float _) as [price_val|]; [|discriminate E'].
    destruct (load_db f) as [[data|ex] f1] eqn:El; [|discriminate E'].
    rewrite Hid. rewrite (stored_loaded Products _ _ _ El) in Hfresh.
    cbn [collection_key] in Hfresh.
    destruct (index_by_id (get_list data "products") !! id) eqn:Ej.
    + destruct Hfresh. apply index_by_id_is_Some. eauto.
    + eauto.
  - unfold create_order, bad_request in E' |- *.
    rewrite !(Hsame' "customer"), !(Hsame' "items") in E' by done.
    destruct (negb (py_truthy _)); [discriminate E'|].
    destruct (nonempty_list _); [|discriminate E'].
    destruct (load_db f) as [[data|ex] f1] eqn:El; [|discriminate E'].
    destruct (validate_items _ _); [discriminate E'|].
    rewrite Hid. rewrite (stored_loaded Orders _ _ _ El) in Hfresh.
    cbn [collection_key] in Hfresh.
    destruct (index_by_id (get_list data "orders") !! id) eqn:Ej.
    + destruct Hfresh. apply index_by_id_is_Some. eauto.
    + eauto.
Qed.

(** C10.  A create request whose id is absent or falsy is served exactly as
    the same request carrying, as its id, the generated id: the prefix of the
    collection ([p-] or [o-]) followed by the first eight characters, all
    hexadecimal digits, of the hexadecimal form of the uuid drawn, that is,
    the hexadecimal form of the draw without its 96 low bits.  When it is
    answered 201 the new record has that id, which no record of the
    collection carried, and the collection has grown by that record.  When a
    record of the collection already carries the generated id the request is
    answered 400 and saves nothing.  When none does, the request is answered
    201 as soon as the same request is under any id at all.  Whatever the
    request, a record is never created with the empty string as its id (given
    that [repr] of a float is never empty). *)
Theorem falsy_id_generates c e raw f :
  supplied_id raw = None →
  generated_id c e = id_prefix c +:+ hex_digits 8 (uuid4 e / 2 ^ 96)%N "" ∧
  String.length (hex_digits 8 (uuid4 e / 2 ^ 96)%N "") = 8%nat ∧
  is_hex (hex_digits 8 (uuid4 e / 2 ^ 96)%N "") = true ∧
  create c e raw f = create c e (with_id raw (generated_id c e)) f ∧
  (∀ r f', create c e raw f = (Resp 201 r, f') →
     record_id r = Some (JStr (generated_id c e)) ∧
     ¬ has_id (stored c f) (generated_id c e) ∧
     stored c f' = stored c f ++ [r]) ∧
  (has_id (stored c f) (generated_id c e) →
   ∃ payload, create c e raw f = (Resp 400 payload, f)) ∧
  (¬ has_id (stored c f) (generated_id c e) →
   ∀ raw' r0 f0,
     (∀ k, k ≠ "id" → dict_get (get_body raw') k = dict_get (get_body raw) k) →
     create c e raw' f = (Resp 201 r0, f0) →
     ∃ r f', create c e raw f = (Resp 201 r, f') ∧
             record_id r = Some (JStr (generated_id c e))) ∧
  ((∀ x, float_repr x ≠ "") →
   ∀ any r f', create c e any f = (Resp 201 r, f') →
     ∃ id, record_id r = Some (JStr id) ∧ id ≠ "").
Proof.
  intros Hnone.
  pose proof (generated_id_or c e raw Hnone) as Hid.
  destruct (uuid_suffix (uuid4 e)) as [Hlen Hhex].
  destruct (create_under_id c e raw f _ Hid) as [Hdup Hnew].
  rewrite uuid_suffix_value in Hlen, Hhex.
  split; [unfold generated_id; by rewrite uuid_suffix_value|].
  split; [exact Hlen|]. split; [exact Hhex|]. split; [|split; [|split; [|split]]].
  - destruct c; cbn [create]; unfold create_product, create_order;
      rewrite (no_supplied_id_or raw) by done;
      rewrite ?(with_id_or raw Products), ?(with_id_or raw Orders);
      rewrite !with_id_other by done; reflexivity.
  - exact Hnew.
  - exact Hdup.
  - intros Hfresh raw' r0 f0 Hsame E'.
    by apply (create_accepts c e raw raw' f r0 f0).
  - intros Hrepr any r f' E.
    destruct c; simpl in *; unfold create_product, create_order, bad_request in E;
      repeat case_match; simplify_eq; eexists; (split; [reflexivity|]);
      by apply new_id_nonempty.
Qed.

End Generated.

Section GeneratedInstance.
#[local] Existing Instance AsciiRuntime.runtime.

Lemma repr_float_nonempty x : AsciiRuntime.repr_float x ≠ "".
Proof.
  destruct x as [[]|[]| |s m e]; simpl; try done.
  destruct (0 <=? e)%Z; destruct s; simpl; try done.
  - by destruct (str_of_Z _).
  - by destruct (str_of_Z _).
Qed.

(** The notebook exists under the very id the next draw generates: the
    request, which carries no id, is answered 400. *)
Lemma generated_id_collides :
  let f := Stored (Shop.document [Shop.notebook "p-9f3b6c1e"] []) in
  supplied_id Shop.notebook_request = None ∧
  generated_id Products Shop.clock = "p-9f3b6c1e" ∧
  create Products Shop.clock Shop.notebook_request f =
    (bad_request "Product id already exists", f).
Proof. repeat split; reflexivity. Qed.

(** The notebook is offered with the empty string as its id, to an empty shop. *)
Lemma falsy_id_generates_witness :
  let raw := JDict [("id", JStr ""); ("name", JStr "Notebook");
                    ("price", JFloat Shop.price_12_5)] in
  let f' := Stored (Shop.document [Shop.notebook "p-9f3b6c1e"] []) in
  supplied_id raw = None ∧
  create Products Shop.clock raw Missing = (Resp 201 (Shop.notebook "p-9f3b6c1e"), f') ∧
  create Products Shop.clock raw Missing =
    create Products Shop.clock (with_id raw (generated_id Products Shop.clock)) Missing ∧
  record_id (Shop.notebook "p-9f3b6c1e") = Some (JStr (generated_id Products Shop.clock)) ∧
  ¬ has_id (stored Products Missing) (generated_id Products Shop.clock) ∧
  stored Products f' = stored Products Missing ++ [Shop.notebook "p-9f3b6c1e"] ∧
  (∃ id, record_id (Shop.notebook "p-9f3b6c1e") = Some (JStr id) ∧ id ≠ "").
Proof.
  intros raw f'.
  pose proof (falsy_id_generates Products Shop.clock raw Missing eq_refl)
    as (_ & _ & _ & Hsame & Hnew & _ & _ & Hnonempty).
  split; [reflexivity|]. split; [reflexivity|]. split; [exact Hsame|].
  destruct (Hnew (Shop.notebook "p-9f3b6c1e") f' eq_refl) as (Hid & Hfresh & Hgrown).
  split; [exact Hid|]. split; [exact Hfresh|]. split; [exact Hgrown|].
  exact (Hnonempty repr_float_nonempty raw _ f' eq_refl).
Defined.

End GeneratedInstance.

(** * Further properties of the code *)

(** ** What [index_by_id] files *)

Section IndexSemantics.
Context `{PyRuntime}.

Lemma last_index_is_last k items j j' it :
  last_index k items = Some j → (j < j')%nat → items !! j' = Some it →
  index_key it ≠ Some k.
Proof.
  revert j j'. induction items as [|x rest IH]; intros j j'; simpl; [done|].
  destruct (last_index k rest) as [j0|] eqn:E.
  - intros [= <-] Hlt. destruct j' as [|j']; [lia|]. simpl.
    apply (IH j0 j' eq_refl). lia.
  - case_decide; [|done]. intros [= <-] Hlt. destruct j' as [|j']; [lia|]. simpl.
    intros Hit Hk. apply last_index_None in E. apply E.
    exists it. split; [by eapply list_elem_of_lookup_2|done].
Qed.

(** X1. [index_by_id] maps an id to the last entry of the list that is an
    object with an ["id"] key whose string form is that id; entries that are
    not objects or have no ["id"] key are skipped, and an id that no entry
    carries is not in the index. *)
Theorem index_by_id_last items k o :
  index_by_id items !! k = o ↔
  match o with
  | Some j =>
      (∃ it, items !! j = Some it ∧ index_key it = Some k) ∧
      (∀ j' it, (j < j')%nat → items !! j' = Some it → index_key it ≠ Some k)
  | None => ∀ it, it ∈ items → index_key it ≠ Some k
  end.
Proof.
  rewrite index_by_id_lookup. split.
  - intros <-. destruct (last_index k items) as [j|] eqn:E.
    + split; [by apply last_index_Some|].
      intros j' it. by apply last_index_is_last.
    + apply last_index_None in E. intros it Hit Hk. apply E. by exists it.
  - destruct o as [j|].
    + intros [(it & Hit & Hk) Hlast].
      destruct (last_index k items) as [j0|] eqn:E.
      * f_equal. destruct (last_index_Some _ _ _ E) as (it0 & Hit0 & Hk0).
        destruct (Nat.lt_trichotomy j0 j) as [Hlt|[->|Hlt]]; [|done|].
        -- by destruct (last_index_is_last _ _ _ _ _ E Hlt Hit).
        -- by destruct (Hlast _ _ Hlt Hit0).
      * apply last_index_None in E. destruct E. exists it.
        split; [by eapply list_elem_of_lookup_2|done].
    + intros Hno. apply last_index_None. intros (it & Hit & Hk). by apply (Hno it).
Qed.

End IndexSemantics.

(** ** The API key *)

Section Auth.
Context `{PyRuntime}.

(** X2. A request to any route but [/health] whose [X-API-Key] header is
    absent, empty or different from the configured key is answered 401 and
    does not touch the file, which is not even initialised.  When the
    configured key is the empty string this is every request, whatever header
    it carries. *)
Theorem wrong_key_is_refused cfg header req f :
  (∀ e, req ≠ Health e) →
  header ≠ Some (API_KEY cfg) ∨ API_KEY cfg = "" →
  serve cfg header req f = (unauthorized, f).
Proof.
  intros Hreq Hkey.
  assert (String.eqb (default "" header) "" ||
          negb (String.eqb (default "" header) (API_KEY cfg)) = true) as Hrefused.
  { destruct header as [k|]; simpl; [|done].
    destruct (String.eqb_spec k "") as [->|Hk]; [done|]. simpl.
    destruct (String.eqb_spec k (API_KEY cfg)) as [->|]; [|done].
    destruct Hkey; congruence. }
  destruct req as [e|op|op]; [by destruct (Hreq e)| |];
    unfold serve, require_api_key; by rewrite Hrefused.
Qed.

(** X3. [/health] answers 200 whatever the header is, absent or wrong
    included, and whatever the configured key is, without touching the file.
    Any other request that carries the configured key, which must not be
    empty, in its header is answered by its handler. *)
Theorem right_key_is_served cfg header req f :
  (∃ e, req = Health e) ∨ (API_KEY cfg ≠ "" ∧ header = Some (API_KEY cfg)) →
  serve cfg header req f =
  match req with
  | Health e => (Resp 200 (JDict [("status", JStr "ok");
                                  ("time", JStr (now_iso e));
                                  ("instance_name", JStr (INSTANCE_NAME cfg));
                                  ("hostname", JStr (hostname cfg));
                                  ("db_path", JStr (DB_PATH cfg))]), f)
  | Read op => run_read op f
  | Write op => run_write op f
  end.
Proof.
  intros Hopen. destruct req as [e|op|op]; [reflexivity| |].
  - destruct Hopen as [[e E]|[Hkey ->]]; [discriminate E|].
    unfold serve, require_api_key. simpl.
    destruct (String.eqb_spec (API_KEY cfg) "") as [E|_]; [by destruct Hkey|].
    by rewrite String.eqb_refl.
  - destruct Hopen as [[e E]|[Hkey ->]]; [discriminate E|].
    unfold serve, require_api_key. simpl.
    destruct (String.eqb_spec (API_KEY cfg) "") as [E|_]; [by destruct Hkey|].
    by rewrite String.eqb_refl.
Qed.

End Auth.

Section AuthInstance.
#[local] Existing Instance AsciiRuntime.runtime.

(** The key set to the empty string in the environment: the empty header does
    not open the shop. *)
Lemma wrong_key_is_refused_witness :
  let cfg := {| API_KEY := api_key_from_env (Some ""); INSTANCE_NAME := "a";
                hostname := "h"; DB_PATH := "data/db.json" |} in
  (∀ e, Read ListProducts ≠ Health e) ∧
  (Some "" ≠ Some (API_KEY cfg) ∨ API_KEY cfg = "") ∧
  serve cfg (Some "") (Read ListProducts) Missing = (unauthorized, Missing).
Proof.
  intros cfg.
  assert (∀ e, Read ListProducts ≠ Health e) as Hreq by discriminate.
  assert (Some "" ≠ Some (API_KEY cfg) ∨ API_KEY cfg = "") as Hkey by (by right).
  split; [exact Hreq|]. split; [exact Hkey|].
  exact (wrong_key_is_refused cfg (Some "") (Read ListProducts) Missing Hreq Hkey).
Defined.

(** The health probe is answered without a header, even when the configured
    key is the empty string; the default key opens the shop. *)
Lemma right_key_is_served_witness :
  let closed := {| API_KEY := api_key_from_env (Some ""); INSTANCE_NAME := "a";
                   hostname := "h"; DB_PATH := "data/db.json" |} in
  let cfg := {| API_KEY := api_key_from_env None; INSTANCE_NAME := "a";
                hostname := "h"; DB_PATH := "data/db.json" |} in
  ((∃ e, Health Shop.clock = Health e) ∨
   (API_KEY closed ≠ "" ∧ None = Some (API_KEY closed))) ∧
  serve closed None (Health Shop.clock) Missing =
    (Resp 200 (JDict [("status", JStr "ok");
                      ("time", JStr (now_iso Shop.clock));
                      ("instance_name", JStr "a");
                      ("hostname", JStr "h");
                      ("db_path", JStr "data/db.json")]), Missing) ∧
  ((∃ e, Read (GetProduct "p1") = Health e) ∨
   (API_KEY cfg ≠ "" ∧ Some "CHANGE_ME" = Some (API_KEY cfg))) ∧
  serve cfg (Some "CHANGE_ME") (Read (GetProduct "p1")) Shop.shop =
    (Resp 200 (Shop.notebook "p1"), Shop.shop).
Proof.
  intros closed cfg.
  assert ((∃ e, Health Shop.clock = Health e) ∨
          (API_KEY closed ≠ "" ∧ None = Some (API_KEY closed))) as Hprobe
    by (left; by exists Shop.clock).
  assert ((∃ e, Read (GetProduct "p1") = Health e) ∨
          (API_KEY cfg ≠ "" ∧ Some "CHANGE_ME" = Some (API_KEY cfg))) as Hkey
    by (right; split; [discriminate|reflexivity]).
  split; [exact Hprobe|]. split.
  { exact (right_key_is_served closed None (Health Shop.clock) Missing Hprobe). }
  split; [exact Hkey|].
  exact (right_key_is_served cfg (Some "CHANGE_ME") (Read (GetProduct "p1"))
           Shop.shop Hkey).
Defined.

End AuthInstance.

(** ** Writes that do not succeed *)

Section Failures.
Context `{PyRuntime}.

Lemma create_product_saves e raw f out f' :
  create_product e raw f = (out, f') →
  f' = f ∨ f' = ensure_db_exists f ∨ is_success out.
Proof.
  unfold create_product. intros E.
  destruct (negb (py_truthy _)); [left; congruence|].
  destruct (is_none _); [left; congruence|].
  destruct (py_float _); [|left; congruence].
  destruct (load_db f) as [[data|ex] f1] eqn:El; apply load_db_file in El as ->;
    [|right; left; congruence].
  destruct (index_by_id _ !! _); [right; left; congruence|].
  right; right. injection E as <- <-. eexists. by right.
Qed.

Lemma update_tail_saves records id r data k f1 out f' :
  match write_back records id r with
  | Raise ex => (Crash ex, f1)
  | Ok records' => (Resp 200 r, save_db (JDict (set_list data k records')))
  end = (out, f') →
  f' = f1 ∨ is_success out.
Proof.
  destruct (write_back records id r); intros [= <- <-]; [right|by left].
  eexists. by left.
Qed.

Lemma update_product_saves pid raw f out f' :
  update_product pid raw f = (out, f') →
  f' = f ∨ f' = ensure_db_exists f ∨ is_success out.
Proof.
  unfold update_product. intros E.
  destruct (load_db f) as [[data|ex] f1] eqn:El; apply load_db_file in El as ->;
    [|right; left; congruence].
  destruct (index_by_id _ !! _) as [j|]; [|right; left; congruence].
  right. destruct (dict_get (get_body raw) "price") as [v|].
  - destruct (py_float v); [|left; congruence].
    apply update_tail_saves in E as [->|?]; eauto.
  - apply update_tail_saves in E as [->|?]; eauto.
Qed.

Lemma delete_product_saves pid f out f' :
  delete_product pid f = (out, f') →
  f' = f ∨ f' = ensure_db_exists f ∨ is_success out.
Proof.
  unfold delete_product. intros E.
  destruct (load_db f) as [[data|ex] f1] eqn:El; apply load_db_file in El as ->;
    [|right; left; congruence].
  destruct (drop_matching _ _ _); [|right; left; congruence].
  destruct (_ =? _)%nat; [right; left; congruence|].
  destruct (prune_orders _ _); [|right; left; congruence].
  right; right. injection E as <- <-. eexists. by left.
Qed.

Lemma create_order_saves e raw f out f' :
  create_order e raw f = (out, f') →
  f' = f ∨ f' = ensure_db_exists f ∨ is_success out.
Proof.
  unfold create_order. intros E.
  destruct (negb (py_truthy _)); [left; congruence|].
  destruct (nonempty_list _); [|left; congruence].
  destruct (load_db f) as [[data|ex] f1] eqn:El; apply load_db_file in El as ->;
    [|right; left; congruence].
  destruct (validate_items _ _); [right; left; congruence|].
  destruct (index_by_id _ !! _); [right; left; congruence|].
  right; right. injection E as <- <-. eexists. by right.
Qed.

Lemma update_order_saves oid raw f out f' :
  update_order oid raw f = (out, f') →
  f' = f ∨ f' = ensure_db_exists f ∨ is_success out.
Proof.
  rewrite update_order_eq. intros E.
  destruct (load_db f) as [[data|ex] f1] eqn:El; apply load_db_file in El as ->;
    [|right; left; congruence].
  destruct (index_by_id _ !! _) as [j|]; [|right; left; congruence].
  right. cbv zeta in E. unfold finish_update_order in E.
  destruct (dict_get (get_body raw) "items") as [v|].
  - destruct (nonempty_list v); [|left; congruence].
    destruct (validate_items _ _); [left; congruence|].
    apply update_tail_saves in E as [->|?]; eauto.
  - apply update_tail_saves in E as [->|?]; eauto.
Qed.

Lemma delete_order_saves oid f out f' :
  delete_order oid f = (out, f') →
  f' = f ∨ f' = ensure_db_exists f ∨ is_success out.
Proof.
  unfold delete_order. intros E.
  destruct (load_db f) as [[data|ex] f1] eqn:El; apply load_db_file in El as ->;
    [|right; left; congruence].
  destruct (drop_matching _ _ _); [|right; left; congruence].
  destruct (_ =? _)%nat; [right; left; congruence|].
  right; right. injection E as <- <-. eexists. by left.
Qed.

(** X4. A write request that is not answered 200 or 201 (a 400, a 404, or an
    exception that escapes the handler) saves nothing: the file is left as
    the request found it, or as [load_db] initialised it when it was absent or
    blank, and [load_db] answers afterwards what it answered before. *)
Theorem failed_write_saves_nothing op f out f' :
  run_write op f = (out, f') →
  ¬ is_success out →
  (f' = f ∨ f' = ensure_db_exists f) ∧ load_db f' = load_db f.
Proof.
  intros E Hfail.
  assert (f' = f ∨ f' = ensure_db_exists f ∨ is_success out) as Hcases.
  { destruct op; simpl in E;
      eauto using create_product_saves, update_product_saves, delete_product_saves,
                  create_order_saves, update_order_saves, delete_order_saves. }
  destruct Hcases as [->|[->|?]]; [| |done].
  - split; [by left|done].
  - split; [by right|apply load_db_idem].
Qed.

End Failures.

Section FailuresInstance.
#[local] Existing Instance AsciiRuntime.runtime.

(** An order that does not exist is deleted from a file that does not exist. *)
Lemma failed_write_saves_nothing_witness :
  run_write (DeleteOrder "o9") Missing =
    (not_found "order not found", Stored empty_doc) ∧
  ¬ is_success (not_found "order not found") ∧
  (Stored empty_doc = Missing ∨ Stored empty_doc = ensure_db_exists Missing) ∧
  load_db (Stored empty_doc) = load_db Missing.
Proof.
  assert (¬ is_success (not_found "order not found")) as Hfail.
  { intros [payload [Hp|Hp]]; discriminate Hp. }
  split; [reflexivity|]. split; [exact Hfail|].
  exact (failed_write_saves_nothing (DeleteOrder "o9") Missing _ _ eq_refl Hfail).
Defined.

End FailuresInstance.

(** ** Deleting *)

Section Deleting.
Context `{PyRuntime}.

Lemma stored_elem_loaded c f x :
  x ∈ stored c f →
  ∃ data, load_db f = (Ok data, f) ∧ is_document data ∧
          stored c f = get_list data (collection_key c).
Proof.
  unfold stored. destruct (load_db f) as [[data|ex] f1] eqn:El.
  - intros Hx. pose proof (load_db_ok _ _ _ El) as (Hd & -> & _).
    destruct (ensure_db_exists_cases f) as [(_ & _ & Hf)|[_ Hf]].
    + rewrite Hf in *. eauto.
    + rewrite (load_db_initialised f Hf) in El. injection El as <-.
      rewrite get_list_empty_doc in Hx. by apply elem_of_nil in Hx.
  - intros Hx. by apply elem_of_nil in Hx.
Qed.

(** When nothing raises, the comprehension is a filter. *)
Lemma drop_matching_filter k id l l' :
  drop_matching k id l = Ok l' →
  l' = List.filter (λ x, negb (matches k id x)) l.
Proof.
  revert l'. induction l as [|x rest IH]; intros l'; simpl; [by intros [= <-]|].
  assert (matches k id x = match get_str k x with
                           | Ok s => String.eqb s id
                           | Raise _ => false
                           end) as -> by done.
  destruct (get_str k x) as [s|]; simpl; [|done].
  destruct (drop_matching k id rest) as [rest'|]; simpl; [|done].
  intros [= <-]. rewrite <- (IH rest' eq_refl). by destruct (String.eqb s id).
Qed.

Lemma drop_matching_no_id id l l' :
  drop_matching "id" id l = Ok l' → ¬ has_id l' id.
Proof.
  intros Hd (x & Hx & Hk). apply index_key_get_str in Hk.
  by destruct (drop_matching_elem _ _ _ _ _ Hd Hx).
Qed.

(** The comprehension raises as soon as one entry is not an object. *)
Lemma drop_matching_raises k id l :
  Exists (λ x, ∀ d, x ≠ JDict d) l → drop_matching k id l = Raise AttributeError.
Proof.
  induction 1 as [x rest Hx|x rest _ IH]; simpl.
  - destruct x; try done. by destruct (Hx d).
  - rewrite IH. destruct x; done.
Qed.

Lemma prune_order_pruned pid o o' : prune_order pid o = Ok o' → o' = pruned pid o.
Proof.
  unfold prune_order, pruned, order_items.
  destruct o as [| | | | | |d]; try by intros [= <-].
  destruct (dict_get d "items") as [[| | | | |items|]|]; try by intros [= <-].
  destruct (drop_matching "productId" pid items) as [items'|] eqn:Ed; simpl; [|done].
  intros [= <-]. by rewrite (drop_matching_filter _ _ _ _ Ed).
Qed.

Lemma prune_orders_map pid orders orders' :
  prune_orders pid orders = Ok orders' → orders' = map (pruned pid) orders.
Proof.
  revert orders'. induction orders as [|o rest IH]; intros orders'; simpl;
    [by intros [= <-]|].
  destruct (prune_order pid o) as [o1|] eqn:Eo; simpl; [|done].
  destruct (prune_orders pid rest) as [rest'|]; simpl; [|done].
  intros [= <-]. by rewrite (prune_order_pruned _ _ _ Eo), (IH rest' eq_refl).
Qed.

(** X5. When [DELETE /products/<pid>] answers 200, the products left are
    exactly the former products whose [str(p.get("id"))] is not [pid], in their
    former order, and the orders are the former orders, in their former order,
    each with exactly its items whose [str(it.get("productId"))] is not [pid],
    in their former order, and with its other fields as they were (an order
    without an item list is kept as it is). *)
Theorem delete_product_exact pid f payload f' :
  delete_product pid f = (Resp 200 payload, f') →
  stored Products f' = List.filter (λ p, negb (matches "id" pid p)) (stored Products f) ∧
  stored Orders f' = map (pruned pid) (stored Orders f).
Proof.
  unfold delete_product, not_found. intros E.
  destruct (load_db f) as [[data|ex] f1] eqn:El; [|discriminate E].
  pose proof (load_db_ok _ _ _ El) as (Hd & _).
  rewrite (stored_loaded Products _ _ _ El), (stored_loaded Orders _ _ _ El).
  cbn [collection_key].
  destruct (drop_matching "id" pid _) as [kept|] eqn:Ek; [|discriminate E].
  destruct (_ =? _)%nat; [discriminate E|].
  destruct (prune_orders pid _) as [orders'|] eqn:Eo; [|discriminate E].
  injection E as <- <-.
  unfold stored. rewrite load_db_saved_list by by apply set_list_document.
  cbn [collection_key]. rewrite get_list_set_ne, !get_list_set_eq by done.
  by rewrite (drop_matching_filter _ _ _ _ Ek), (prune_orders_map _ _ _ Eo).
Qed.

(** X6. When [DELETE /orders/<oid>] answers 200, the orders left are exactly
    the former orders whose [str(o.get("id"))] is not [oid], in their former
    order, at least one order is gone, and the products are as they were. *)
Theorem delete_order_exact oid f payload f' :
  delete_order oid f = (Resp 200 payload, f') →
  stored Orders f' = List.filter (λ o, negb (matches "id" oid o)) (stored Orders f) ∧
  (length (stored Orders f') < length (stored Orders f))%nat ∧
  stored Products f' = stored Products f.
Proof.
  unfold delete_order, not_found. intros E.
  destruct (load_db f) as [[data|ex] f1] eqn:El; [|discriminate E].
  pose proof (load_db_ok _ _ _ El) as (Hd & _).
  rewrite (stored_loaded Products _ _ _ El), (stored_loaded Orders _ _ _ El).
  cbn [collection_key].
  destruct (drop_matching "id" oid _) as [kept|] eqn:Ek; [|discriminate E].
  destruct (Nat.eqb_spec (length kept) (length (get_list data "orders"))) as [|Hlen];
    [discriminate E|].
  injection E as <- <-.
  unfold stored. rewrite load_db_saved_list by done.
  cbn [collection_key].
  rewrite (get_list_set_ne _ "orders" "products") by done. rewrite !get_list_set_eq.
  split; [by apply drop_matching_filter|]. split; [|done].
  pose proof (drop_matching_length _ _ _ _ Ek). lia.
Qed.

(** X7. A record that was deleted is gone: after a delete answered 200, a get
    on the same id is answered 404. *)
Theorem delete_then_get c id f payload f' :
  delete c id f = (Resp 200 payload, f') →
  ∃ payload', get c id f' = (Resp 404 payload', f').
Proof.
  intros E.
  assert (∃ data kept, is_document data ∧
            f' = save_db (JDict data) ∧ get_list data (collection_key c) = kept ∧
            ¬ has_id kept id) as (data & kept & Hd & -> & Hkept & Hno).
  { destruct c; cbn [delete] in E; unfold delete_product, delete_order, not_found in E;
      (destruct (load_db f) as [[data|ex] f1] eqn:El; [|discriminate E]);
      pose proof (load_db_ok _ _ _ El) as (Hd & _);
      (destruct (drop_matching "id" id _) as [kept|] eqn:Ek; [|discriminate E]);
      (destruct (_ =? _)%nat; [discriminate E|]).
    - destruct (prune_orders id _) as [orders'|]; [|discriminate E].
      injection E as <- <-. eexists _, kept.
      split; [by apply set_list_document, set_list_document|]. split; [done|].
      cbn [collection_key]. rewrite get_list_set_ne, get_list_set_eq by done.
      split; [done|]. by eapply drop_matching_no_id.
    - injection E as <- <-. eexists _, kept.
      split; [by apply set_list_document|]. split; [done|].
      cbn [collection_key]. rewrite get_list_set_eq.
      split; [done|]. by eapply drop_matching_no_id. }
  apply last_index_None in Hno.
  destruct c; cbn [get collection_key] in *; unfold get_product, get_order, not_found;
    rewrite load_db_saved by done; rewrite Hkept, index_by_id_lookup, Hno; eauto.
Qed.

(** X8. A collection that holds an entry that is not an object cannot be
    deleted from: every [DELETE] on it ends in an [AttributeError], whatever
    the id, and saves nothing.  The reads of the same collection are not
    affected: the list is answered 200 and a get 200 or 404. *)
Theorem delete_needs_objects c id f :
  Exists (λ x, ∀ d, x ≠ JDict d) (stored c f) →
  delete c id f = (Crash AttributeError, f) ∧
  list_all c f = (Resp 200 (JList (stored c f)), f) ∧
  ∃ code payload, get c id f = (Resp code payload, f) ∧ (code = 200 ∨ code = 404).
Proof.
  intros Hbad.
  assert (∃ x, x ∈ stored c f) as [x Hx].
  { apply Exists_exists in Hbad as (x & Hx & _). eauto. }
  destruct (stored_elem_loaded _ _ _ Hx) as (data & El & Hd & Hs).
  rewrite Hs in *.
  destruct c; cbn [delete list_all get collection_key] in *;
    unfold delete_product, delete_order, list_products, list_orders,
           get_product, get_order, not_found;
    rewrite El, (drop_matching_raises _ _ _ Hbad);
    (split; [done|]); (split; [done|]);
    destruct (index_by_id _ !! id); eauto.
Qed.

End Deleting.

Section DeletingInstance.
#[local] Existing Instance AsciiRuntime.runtime.

Lemma delete_product_exact_witness :
  let f' := Stored (Shop.document [] [Shop.order "o1" []]) in
  delete_product "p1" Shop.shop = (Resp 200 (JDict [("deleted", JStr "p1")]), f') ∧
  stored Products f' =
    List.filter (λ p, negb (matches "id" "p1" p)) (stored Products Shop.shop) ∧
  stored Orders f' = map (pruned "p1") (stored Orders Shop.shop).
Proof.
  intros f'. split; [reflexivity|].
  exact (delete_product_exact "p1" Shop.shop _ f' eq_refl).
Defined.

Lemma delete_order_exact_witness :
  let f' := Stored (Shop.document [Shop.notebook "p1"] []) in
  delete_order "o1" Shop.shop = (Resp 200 (JDict [("deleted", JStr "o1")]), f') ∧
  stored Orders f' =
    List.filter (λ o, negb (matches "id" "o1" o)) (stored Orders Shop.shop) ∧
  (length (stored Orders f') < length (stored Orders Shop.shop))%nat ∧
  stored Products f' = stored Products Shop.shop.
Proof.
  intros f'. split; [reflexivity|].
  exact (delete_order_exact "o1" Shop.shop _ f' eq_refl).
Defined.

Lemma delete_then_get_witness :
  let f' := Stored (Shop.document [Shop.notebook "p1"] []) in
  delete Orders "o1" Shop.shop = (Resp 200 (JDict [("deleted", JStr "o1")]), f') ∧
  ∃ payload', get Orders "o1" f' = (Resp 404 payload', f').
Proof.
  intros f'. split; [reflexivity|].
  exact (delete_then_get Orders "o1" Shop.shop _ f' eq_refl).
Defined.

(** A stray string among the products. *)
Lemma delete_needs_objects_witness :
  let f := Stored (Shop.document [JStr "stray"; Shop.notebook "p1"] []) in
  Exists (λ x, ∀ d, x ≠ JDict d) (stored Products f) ∧
  delete Products "p1" f = (Crash AttributeError, f) ∧
  list_all Products f = (Resp 200 (JList (stored Products f)), f) ∧
  ∃ code payload, get Products "p1" f = (Resp code payload, f) ∧ (code = 200 ∨ code = 404).
Proof.
  intros f.
  assert (Exists (λ x, ∀ d, x ≠ JDict d) (stored Products f)) as Hbad.
  { apply Exists_cons_hd. discriminate. }
  split; [exact Hbad|].
  exact (delete_needs_objects Products "p1" f Hbad).
Defined.

End DeletingInstance.

(** ** Updating *)

Section Updating.
Context `{PyRuntime}.

(** The write-back loop leaves alone every entry that does not carry the id. *)
Lemma write_back_others l id r l' i p :
  write_back l id r = Ok l' →
  l !! i = Some p → ¬ carries_id id p → l' !! i = Some p.
Proof.
  unfold carries_id. revert l' i.
  induction l as [|x rest IH]; intros l' i; simpl; [done|].
  destruct (get_str "id" x) as [s|] eqn:Es; simpl; [|done].
  destruct (String.eqb_spec s id) as [->|Hne].
  - intros [= <-]. destruct i as [|i]; simpl; [|done].
    intros [= <-] Hp. by destruct Hp.
  - destruct (write_back rest id r) as [rest'|] eqn:Ew; simpl; [|done].
    intros [= <-]. destruct i as [|i]; simpl; [done|]. by apply IH.
Qed.

Lemma write_back_length l id r l' : write_back l id r = Ok l' → length l' = length l.
Proof.
  revert l'. induction l as [|x rest IH]; intros l'; simpl; [by intros [= <-]|].
  destruct (get_str "id" x) as [s|]; simpl; [|done].
  destruct (String.eqb s id); [by intros [= <-]|].
  destruct (write_back rest id r) as [rest'|]; simpl; [|done].
  intros [= <-]. simpl. by rewrite (IH rest' eq_refl).
Qed.

Lemma alter_others (g : json → json) j (l : list json) i :
  i ≠ j → alter g j l !! i = l !! i.
Proof. intros Hne. rewrite list_lookup_alter. by rewrite decide_False. Qed.

Lemma assign_str_others k ov j (l : list json) i :
  i ≠ j → assign_str k ov j l !! i = l !! i.
Proof. intros Hne. destruct ov; [by apply alter_others|done]. Qed.

Lemma assign_str_length k ov j (l : list json) : length (assign_str k ov j l) = length l.
Proof. destruct ov; [apply length_alter|done]. Qed.

(** The record the index points to carries the id. *)
Lemma indexed_carries id l j p :
  last_index id l = Some j → l !! j = Some p → carries_id id p.
Proof.
  intros Hj Hp. destruct (last_index_Some _ _ _ Hj) as (p' & Hp' & Hk).
  simplify_eq. by apply index_key_get_str.
Qed.

(** The tail of both update handlers: write back, save, answer. *)
Lemma update_tail_stored c id j data records f1 r r' f' :
  is_document data →
  last_index id records = Some j → records !! j = Some r →
  match write_back records id (deref records j) with
  | Raise ex => (Crash ex, f1)
  | Ok records' =>
      (Resp 200 (deref records j),
       save_db (JDict (set_list data (collection_key c) records')))
  end = (Resp 200 r', f') →
  r' = r ∧ get c id f' = (Resp 200 r', f') ∧
  ∃ records', write_back records id r = Ok records' ∧
              f' = save_db (JDict (set_list data (collection_key c) records')).
Proof.
  intros Hd Hj Hr. unfold deref. rewrite Hr. simpl.
  destruct (write_back records id r) as [records'|] eqn:Ew; [|done].
  intros [= <- <-]. split; [done|].
  destruct (write_back_last _ _ _ _ _ Hj Hr Ew) as (Hj' & Hr' & _).
  split; [|eauto].
  destruct c; cbn [get collection_key]; unfold get_product, get_order;
    rewrite load_db_saved_list by done; rewrite get_list_set_eq;
    rewrite index_by_id_lookup, Hj'; unfold deref; by rewrite Hr'.
Qed.

(** [update_product], with its conditional assignment of the name named. *)
Lemma update_product_eq pid raw f :
  update_product pid raw f =
  match load_db f with
  | (Raise ex, f1) => (Crash ex, f1)
  | (Ok data, f1) =>
      match index_by_id (get_list data "products") !! pid with
      | None => (not_found "product not found", f1)
      | Some j =>
          let products :=
            assign_str "name" (dict_get (get_body raw) "name") j
              (get_list data "products") in
          let priced :=
            match dict_get (get_body raw) "price" with
            | Some v =>
                match py_float v with
                | Ok x => Ok (alter (record_set "price" (JFloat x)) j products)
                | Raise ex => Raise ex
                end
            | None => Ok products
            end in
          match priced with
          | Raise _ => (bad_request "Field 'price' must be a number", f1)
          | Ok products =>
              match write_back products pid (deref products j) with
              | Raise ex => (Crash ex, f1)
              | Ok products' =>
                  (Resp 200 (deref products j),
                   save_db (JDict (set_list data "products" products')))
              end
          end
      end
  end.
Proof. reflexivity. Qed.

(** X9. When [PUT /products/<pid>] answers 200, the record it answers with is
    the record the index held for [pid] with [name] set to the string form of
    the supplied value, whatever it is, and [price] set to the float the
    supplied value converts to, each only when supplied, and every other
    field as it was; that record is what a get on [pid] then returns.  No
    product is added or removed, every product that does not carry [pid] stays
    where and as it was, and the orders are as they were. *)
Theorem update_product_frame pid raw f r' f' :
  update_product pid raw f = (Resp 200 r', f') →
  ∃ j r,
    index_by_id (stored Products f) !! pid = Some j ∧
    stored Products f !! j = Some r ∧
    (∀ k, k ≠ "name" → k ≠ "price" → field k r' = field k r) ∧
    field "name" r' =
      match dict_get (get_body raw) "name" with
      | Some v => Some (JStr (py_str v))
      | None => field "name" r
      end ∧
    match dict_get (get_body raw) "price" with
    | Some v => ∃ x, py_float v = Ok x ∧ field "price" r' = Some (JFloat x)
    | None => field "price" r' = field "price" r
    end ∧
    get_product pid f' = (Resp 200 r', f') ∧
    length (stored Products f') = length (stored Products f) ∧
    (∀ i p, stored Products f !! i = Some p → ¬ carries_id pid p →
            stored Products f' !! i = Some p) ∧
    stored Orders f' = stored Orders f.
Proof.
  intros E. rewrite update_product_eq in E. unfold not_found, bad_request in E.
  destruct (load_db f) as [[data|ex] f1] eqn:El; [|discriminate E].
  destruct (index_by_id (get_list data "products") !! pid) as [j|] eqn:Ej;
    [|discriminate E].
  pose proof (load_db_ok _ _ _ El) as (Hd & _).
  rewrite (stored_loaded Products _ _ _ El), (stored_loaded Orders _ _ _ El).
  cbn [collection_key].
  pose proof Ej as Hj. rewrite index_by_id_lookup in Hj.
  destruct (last_index_Some _ _ _ Hj) as (r & Hr & Hk).
  assert (∃ d, r = JDict d) as [d ->] by (destruct r; try discriminate Hk; eauto).
  exists j, (JDict d). do 2 (split; [done|]).
  pose proof (indexed_carries _ _ _ _ Hj Hr) as Hcarries.
  cbv zeta in E.
  destruct (assign_str_spec pid j _ d "name" (dict_get (get_body raw) "name")
              ltac:(done) Hj Hr) as (d1 & Hj1 & Hr1 & Hframe1 & Hname1).
  pose proof (assign_str_others "name" (dict_get (get_body raw) "name") j
                (get_list data "products")) as Hothers1.
  pose proof (assign_str_length "name" (dict_get (get_body raw) "name") j
                (get_list data "products")) as Hlen1.
  set (products1 := assign_str "name" _ j _) in *. clearbody products1.
  assert (∀ i p, get_list data "products" !! i = Some p → ¬ carries_id pid p → i ≠ j)
    as Hne.
  { intros i p Hi Hp ->. simplify_eq. done. }
  destruct (dict_get (get_body raw) "price") as [v|] eqn:Ep.
  - destruct (py_float v) as [x|] eqn:Ex; [|discriminate E].
    destruct (assign_through_index pid j _ d1 "price" (JFloat x)
                ltac:(done) Hj1 Hr1) as [Hj2 Hr2].
    destruct (update_tail_stored Products _ _ _ _ _ _ _ _ Hd Hj2 Hr2 E)
      as (-> & Hget & records' & Hw & ->).
    cbn [field].
    split; [intros k ? ?; rewrite dict_get_set_ne by done; by apply Hframe1|].
    split; [by rewrite dict_get_set_ne by done|].
    split; [exists x; by rewrite dict_get_set_eq|].
    split; [exact Hget|].
    unfold stored. rewrite load_db_saved_list by done. cbn [collection_key].
    rewrite (get_list_set_ne _ "products" "orders") by done. rewrite !get_list_set_eq.
    split; [by rewrite (write_back_length _ _ _ _ Hw), length_alter|].
    split; [|done].
    intros i p Hi Hp. apply (write_back_others _ _ _ _ _ _ Hw); [|done].
    rewrite alter_others, Hothers1; eauto.
  - destruct (update_tail_stored Products _ _ _ _ _ _ _ _ Hd Hj1 Hr1 E)
      as (-> & Hget & records' & Hw & ->).
    cbn [field].
    split; [intros k ? ?; by apply Hframe1|].
    split; [done|].
    split; [by apply Hframe1|].
    split; [exact Hget|].
    unfold stored. rewrite load_db_saved_list by done. cbn [collection_key].
    rewrite (get_list_set_ne _ "products" "orders") by done. rewrite !get_list_set_eq.
    split; [by rewrite (write_back_length _ _ _ _ Hw)|].
    split; [|done].
    intros i p Hi Hp. apply (write_back_others _ _ _ _ _ _ Hw); [|done].
    rewrite Hothers1; eauto.
Qed.

(** X10. When [PUT /orders/<oid>] answers 200, no order is added or removed,
    every order that does not carry [oid] stays where and as it was, and the
    products are as they were. *)
Theorem update_order_leaves_others oid raw f r' f' :
  update_order oid raw f = (Resp 200 r', f') →
  length (stored Orders f') = length (stored Orders f) ∧
  (∀ i o, stored Orders f !! i = Some o → ¬ carries_id oid o →
          stored Orders f' !! i = Some o) ∧
  stored Products f' = stored Products f.
Proof.
  intros E. rewrite update_order_eq in E. unfold not_found, bad_request in E.
  destruct (load_db f) as [[data|ex] f1] eqn:El; [|discriminate E].
  destruct (index_by_id (get_list data "orders") !! oid) as [j|] eqn:Ej;
    [|discriminate E].
  pose proof (load_db_ok _ _ _ El) as (Hd & _).
  rewrite (stored_loaded Products _ _ _ El), (stored_loaded Orders _ _ _ El).
  cbn [collection_key].
  pose proof Ej as Hj. rewrite index_by_id_lookup in Hj.
  destruct (last_index_Some _ _ _ Hj) as (r & Hr & Hk).
  assert (∃ d, r = JDict d) as [d ->] by (destruct r; try discriminate Hk; eauto).
  pose proof (indexed_carries _ _ _ _ Hj Hr) as Hcarries.
  assert (∀ i p, get_list data "orders" !! i = Some p → ¬ carries_id oid p → i ≠ j)
    as Hne.
  { intros i p Hi Hp ->. simplify_eq. done. }
  cbv zeta in E. unfold finish_update_order in E.
  destruct (assign_str_spec oid j _ d "status" (dict_get (get_body raw) "status")
              ltac:(done) Hj Hr) as (d1 & Hj1 & Hr1 & _).
  destruct (assign_str_spec oid j _ d1 "customer" (dict_get (get_body raw) "customer")
              ltac:(done) Hj1 Hr1) as (d2 & Hj2 & Hr2 & _).
  assert (∀ i, i ≠ j →
            assign_str "customer" (dict_get (get_body raw) "customer") j
              (assign_str "status" (dict_get (get_body raw) "status") j
                 (get_list data "orders")) !! i = get_list data "orders" !! i)
    as Hothers.
  { intros i Hi. by rewrite !assign_str_others. }
  assert (length (assign_str "customer" (dict_get (get_body raw) "customer") j
                    (assign_str "status" (dict_get (get_body raw) "status") j
                       (get_list data "orders"))) = length (get_list data "orders"))
    as Hlen.
  { by rewrite !assign_str_length. }
  set (orders2 := assign_str "customer" _ j _) in *. clearbody orders2.
  destruct (dict_get (get_body raw) "items") as [v|] eqn:Ei.
  - destruct (nonempty_list v) as [items|]; [|discriminate E].
    destruct (validate_items _ items) as [msg|new_items]; [discriminate E|].
    destruct (assign_through_index oid j _ d2 "items" (JList new_items)
                ltac:(done) Hj2 Hr2) as [Hj3 Hr3].
    destruct (update_tail_stored Orders _ _ _ _ _ _ _ _ Hd Hj3 Hr3 E)
      as (-> & Hget & records' & Hw & ->).
    unfold stored. rewrite load_db_saved_list by done. cbn [collection_key].
    rewrite (get_list_set_ne _ "orders" "products") by done. rewrite !get_list_set_eq.
    split; [by rewrite (write_back_length _ _ _ _ Hw), length_alter|].
    split; [|done].
    intros i p Hi Hp. apply (write_back_others _ _ _ _ _ _ Hw); [|done].
    rewrite alter_others, Hothers; eauto.
  - destruct (update_tail_stored Orders _ _ _ _ _ _ _ _ Hd Hj2 Hr2 E)
      as (-> & Hget & records' & Hw & ->).
    unfold stored. rewrite load_db_saved_list by done. cbn [collection_key].
    rewrite (get_list_set_ne _ "orders" "products") by done. rewrite !get_list_set_eq.
    split; [by rewrite (write_back_length _ _ _ _ Hw)|].
    split; [|done].
    intros i p Hi Hp. apply (write_back_others _ _ _ _ _ _ Hw); [|done].
    rewrite Hothers; eauto.
Qed.

End Updating.

Section UpdatingInstance.
#[local] Existing Instance AsciiRuntime.runtime.

(** The notebook becomes a pad at 3, the price given as text. *)
Lemma update_product_frame_witness :
  let raw := JDict [("name", JStr "Pad"); ("price", JStr "3")] in
  let r' := JDict [("id", JStr "p1"); ("name", JStr "Pad");
                   ("price", JFloat (S754_finite false 6755399441055744 (-51)));
                   ("createdAt", JStr "2024-05-01T10:00:00Z")] in
  let f' := Stored (Shop.document [r'] [Shop.order "o1" [Shop.line "p1" 2]]) in
  update_product "p1" raw Shop.shop = (Resp 200 r', f') ∧
  ∃ j r,
    index_by_id (stored Products Shop.shop) !! "p1" = Some j ∧
    stored Products Shop.shop !! j = Some r ∧
    (∀ k, k ≠ "name" → k ≠ "price" → field k r' = field k r) ∧
    field "name" r' =
      match dict_get (get_body raw) "name" with
      | Some v => Some (JStr (py_str v))
      | None => field "name" r
      end ∧
    match dict_get (get_body raw) "price" with
    | Some v => ∃ x, py_float v = Ok x ∧ field "price" r' = Some (JFloat x)
    | None => field "price" r' = field "price" r
    end ∧
    get_product "p1" f' = (Resp 200 r', f') ∧
    length (stored Products f') = length (stored Products Shop.shop) ∧
    (∀ i p, stored Products Shop.shop !! i = Some p → ¬ carries_id "p1" p →
            stored Products f' !! i = Some p) ∧
    stored Orders f' = stored Orders Shop.shop.
Proof.
  intros raw r' f'. split; [reflexivity|].
  exact (update_product_frame "p1" raw Shop.shop r' f' eq_refl).
Defined.

(** Fatima's order gets the customer [7]. *)
Lemma update_order_leaves_others_witness :
  let r' := JDict [("id", JStr "o1"); ("customer", JStr "7");
                   ("items", JList [Shop.line "p1" 2]); ("status", JStr "NEW");
                   ("createdAt", JStr "2024-05-01T10:00:00Z")] in
  let f' := Stored (Shop.document [Shop.notebook "p1"] [r']) in
  update_order "o1" (JDict [("customer", JInt 7)]) Shop.shop = (Resp 200 r', f') ∧
  length (stored Orders f') = length (stored Orders Shop.shop) ∧
  (∀ i o, stored Orders Shop.shop !! i = Some o → ¬ carries_id "o1" o →
          stored Orders f' !! i = Some o) ∧
  stored Products f' = stored Products Shop.shop.
Proof.
  intros r' f'. split; [reflexivity|].
  exact (update_order_leaves_others "o1" (JDict [("customer", JInt 7)]) Shop.shop r' f'
           eq_refl).
Defined.

End UpdatingInstance.

(** ** Creating *)

Section Creating.
Context `{PyRuntime}.

(** What a create answered 201 has done to the document. *)
Lemma create_effect c e raw f r f' :
  create c e raw f = (Resp 201 r, f') →
  ∃ data id,
    load_db f = (Ok data, ensure_db_exists f) ∧
    f' = save_db (JDict (set_list data (collection_key c)
                           (get_list data (collection_key c) ++ [r]))) ∧
    index_key r = Some id ∧
    index_by_id (get_list data (collection_key c)) !! id = None.
Proof.
  intros E. destruct c; cbn [create collection_key] in *.
  - unfold create_product, bad_request in E.
    destruct (negb (py_truthy _)); [discriminate E|].
    destruct (is_none _); [discriminate E|].
    destruct (py_float _) as [price_val|]; [|discriminate E].
    destruct (load_db f) as [[data|ex] f1] eqn:El; [|discriminate E].
    pose proof (load_db_file _ _ _ El) as ->.
    destruct (index_by_id _ !! _) eqn:Ej; [discriminate E|].
    injection E as <- <-. eexists data, _. by repeat split.
  - unfold create_order, bad_request in E.
    destruct (negb (py_truthy _)); [discriminate E|].
    destruct (nonempty_list _); [|discriminate E].
    destruct (load_db f) as [[data|ex] f1] eqn:El; [|discriminate E].
    pose proof (load_db_file _ _ _ El) as ->.
    destruct (validate_items _ _); [discriminate E|].
    destruct (index_by_id _ !! _) eqn:Ej; [discriminate E|].
    injection E as <- <-. eexists data, _. by repeat split.
Qed.

Lemma collection_key_other c : collection_key c ≠ collection_key (other c).
Proof. by destruct c. Qed.

(** X11. A create answered 201 appends the record it answers with to its
    collection and changes nothing else: the collection is the former one
    followed by the new record, which is what the list request then shows, and
    the other collection is as it was.  The id of the new record was carried
    by no record of the collection before. *)
Theorem create_appends c e raw f r f' :
  create c e raw f = (Resp 201 r, f') →
  stored c f' = stored c f ++ [r] ∧
  stored (other c) f' = stored (other c) f ∧
  list_all c f' = (Resp 200 (JList (stored c f ++ [r])), f') ∧
  ∃ id, index_key r = Some id ∧ ¬ has_id (stored c f) id.
Proof.
  intros E. destruct (create_effect _ _ _ _ _ _ E) as (data & id & El & -> & Hk & Hno).
  pose proof (load_db_ok _ _ _ El) as (Hd & _).
  rewrite !(stored_loaded _ _ _ _ El).
  unfold stored. rewrite load_db_saved_list by done.
  rewrite get_list_set_eq, get_list_set_ne by apply collection_key_other.
  split; [done|]. split; [done|]. split.
  - destruct c; cbn [list_all collection_key]; unfold list_products, list_orders;
      rewrite load_db_saved_list by done; by rewrite get_list_set_eq.
  - exists id. split; [done|]. rewrite <- index_by_id_is_Some, Hno. by intros [? ?].
Qed.

(** What the item loop accepted was valid, and is stored in normal form. *)
Lemma validate_items_accepted products items normalized :
  validate_items (index_by_id products) items = Accepted normalized →
  Forall (item_valid products) items ∧ normalized = map normalized_item items.
Proof.
  revert normalized. induction items as [|it rest IH]; intros normalized; simpl.
  - intros [= <-]. by split.
  - destruct it as [| | | | | |d]; try done.
    fold (item_product_id d).
    destruct (String.eqb_spec (item_product_id d) "") as [|Hne]; [done|].
    destruct (index_by_id products !! item_product_id d) as [j|] eqn:Ej; [|done].
    destruct (py_int (dict_get_or d "qty" JNull)) as [q|] eqn:Eq; [|done].
    destruct (Z.leb_spec q 0); [done|].
    destruct (validate_items (index_by_id products) rest) as [|rest'] eqn:Er; [done|].
    intros [= <-]. destruct (IH rest' eq_refl) as [Hvalid ->].
    split.
    + constructor; [|done]. exists d, q. repeat split; try done.
      apply index_by_id_is_Some. eauto.
    + simpl. fold (item_product_id d). by rewrite Eq.
Qed.

(** X12. An order that was created has a non-empty item list all of whose
    items were valid against the products of that moment, stored in normal
    form ([productId] the stripped string, [qty] the integer); its customer is
    the string form of a truthy value, its status the string form of the
    supplied value or ["NEW"] when none was supplied, and its creation time
    the clock's UTC time followed by [Z]. *)
Theorem created_order_shape e raw f r f' :
  create_order e raw f = (Resp 201 r, f') →
  ∃ items,
    dict_get (get_body raw) "items" = Some (JList items) ∧
    items ≠ [] ∧
    Forall (item_valid (stored Products f)) items ∧
    field "items" r = Some (JList (map normalized_item items)) ∧
    py_truthy (dict_get_or (get_body raw) "customer" JNull) = true ∧
    field "customer" r =
      Some (JStr (py_str (dict_get_or (get_body raw) "customer" JNull))) ∧
    field "status" r =
      Some (JStr (match dict_get (get_body raw) "status" with
                  | Some v => py_str v
                  | None => "NEW"
                  end)) ∧
    field "createdAt" r = Some (JStr (utcnow_isoformat e +:+ "Z")).
Proof.
  unfold create_order, bad_request. intros E.
  destruct (py_truthy (dict_get_or (get_body raw) "customer" JNull)) eqn:Ec;
    [|discriminate E]. cbn [negb] in E.
  unfold dict_get_or at 1 in E.
  destruct (dict_get (get_body raw) "items") as [v|] eqn:Ei; [|discriminate E].
  destruct v as [| | | | |items|]; try discriminate E.
  destruct items as [|it rest]; [discriminate E|]. cbn [nonempty_list] in E.
  destruct (load_db f) as [[data|ex] f1] eqn:El; [|discriminate E].
  destruct (validate_items _ _) as [msg|normalized] eqn:Ev; [discriminate E|].
  destruct (index_by_id _ !! _); [discriminate E|].
  injection E as <- <-.
  destruct (validate_items_accepted _ _ _ Ev) as [Hvalid ->].
  exists (it :: rest). rewrite (stored_loaded Products _ _ _ El). cbn [collection_key].
  do 4 (split; [done|]). split; [done|]. split; [done|].
  split; [|done]. cbn [field dict_get String.eqb Ascii.eqb Bool.eqb].
  unfold dict_get_or. by destruct (dict_get (get_body raw) "status").
Qed.

(** X13. A product that was deleted cannot be ordered any more: after a
    [DELETE /products/<pid>] answered 200, a create-order request with an item
    whose product id is [pid] is answered 400, and so is an update-order
    request for an existing order; neither saves anything. *)
Theorem deleted_product_cannot_be_ordered pid f payload f' e raw items d :
  delete_product pid f = (Resp 200 payload, f') →
  dict_get (get_body raw) "items" = Some (JList items) →
  JDict d ∈ items → item_product_id d = pid →
  (∃ payload', create_order e raw f' = (Resp 400 payload', f')) ∧
  (∀ oid, has_id (stored Orders f') oid →
          ∃ payload', update_order oid raw f' = (Resp 400 payload', f')).
Proof.
  intros E Hitems Hd Hpid.
  assert (∃ data', is_document data' ∧ f' = save_db (JDict data') ∧
                   ¬ has_id (get_list data' "products") pid) as (data' & Hdoc & -> & Hno).
  { unfold delete_product, not_found in E.
    destruct (load_db f) as [[data|ex] f1] eqn:El; [|discriminate E].
    pose proof (load_db_ok _ _ _ El) as (Hdoc & _).
    destruct (drop_matching "id" pid _) as [kept|] eqn:Ek; [|discriminate E].
    destruct (_ =? _)%nat; [discriminate E|].
    destruct (prune_orders pid _) as [orders'|]; [|discriminate E].
    injection E as <- <-. eexists. split; [by apply set_list_document, set_list_document|].
    split; [done|]. rewrite get_list_set_ne, get_list_set_eq by done.
    by eapply drop_matching_no_id. }
  pose proof (load_db_saved _ Hdoc) as El'.
  assert (Exists (λ it, ¬ item_valid (get_list data' "products") it) items) as Hbad.
  { apply Exists_exists. exists (JDict d). split; [done|].
    intros (d' & q & [= <-] & _ & Hid & _). apply Hno. by rewrite <- Hpid. }
  destruct (validate_items_rejects _ _ Hbad) as [msg Hrej].
  destruct items as [|it rest]; [by apply elem_of_nil in Hd|].
  split.
  - unfold create_order, bad_request, dict_get_or. rewrite Hitems.
    destruct (py_truthy _); cbn [negb nonempty_list]; [|eauto].
    rewrite El', Hrej. eauto.
  - intros oid Hoid. unfold stored in Hoid. rewrite El' in Hoid.
    apply index_by_id_is_Some in Hoid as [j Hj]. cbn [collection_key] in Hj.
    unfold update_order, bad_request. rewrite El', Hj, Hitems.
    cbn [nonempty_list]. rewrite Hrej. eauto.
Qed.

End Creating.

Section CreatingInstance.
#[local] Existing Instance AsciiRuntime.runtime.

Lemma create_appends_witness :
  create Orders Shop.clock Shop.second_order_request Shop.shop =
    (Resp 201 Shop.second_order, Shop.shop_with_second_order) ∧
  stored Orders Shop.shop_with_second_order = stored Orders Shop.shop ++ [Shop.second_order] ∧
  stored (other Orders) Shop.shop_with_second_order = stored (other Orders) Shop.shop ∧
  list_all Orders Shop.shop_with_second_order =
    (Resp 200 (JList (stored Orders Shop.shop ++ [Shop.second_order])),
     Shop.shop_with_second_order) ∧
  ∃ id, index_key Shop.second_order = Some id ∧ ¬ has_id (stored Orders Shop.shop) id.
Proof.
  split; [reflexivity|].
  exact (create_appends Orders Shop.clock Shop.second_order_request Shop.shop _ _ eq_refl).
Defined.

Lemma created_order_shape_witness :
  create_order Shop.clock Shop.second_order_request Shop.shop =
    (Resp 201 Shop.second_order, Shop.shop_with_second_order) ∧
  ∃ items,
    dict_get (get_body Shop.second_order_request) "items" = Some (JList items) ∧
    items ≠ [] ∧
    Forall (item_valid (stored Products Shop.shop)) items ∧
    field "items" Shop.second_order = Some (JList (map normalized_item items)) ∧
    py_truthy (dict_get_or (get_body Shop.second_order_request) "customer" JNull) = true ∧
    field "customer" Shop.second_order =
      Some (JStr (py_str (dict_get_or (get_body Shop.second_order_request) "customer" JNull))) ∧
    field "status" Shop.second_order =
      Some (JStr (match dict_get (get_body Shop.second_order_request) "status" with
                  | Some v => py_str v
                  | None => "NEW"
                  end)) ∧
    field "createdAt" Shop.second_order =
      Some (JStr (utcnow_isoformat Shop.clock +:+ "Z")).
Proof.
  split; [reflexivity|].
  exact (created_order_shape Shop.clock Shop.second_order_request Shop.shop _ _ eq_refl).
Defined.

(** The notebook is deleted, then ordered. *)
Lemma deleted_product_cannot_be_ordered_witness :
  let f' := Stored (Shop.document [] [Shop.order "o1" []]) in
  let raw := Shop.order_request [Shop.line "p1" 2] in
  delete_product "p1" Shop.shop = (Resp 200 (JDict [("deleted", JStr "p1")]), f') ∧
  (∃ payload', create_order Shop.clock raw f' = (Resp 400 payload', f')) ∧
  (∀ oid, has_id (stored Orders f') oid →
          ∃ payload', update_order oid raw f' = (Resp 400 payload', f')).
Proof.
  intros f' raw. split; [reflexivity|].
  apply (deleted_product_cannot_be_ordered "p1" Shop.shop
           (JDict [("deleted", JStr "p1")]) f' Shop.clock raw
           [Shop.line "p1" 2] [("productId", JStr "p1"); ("qty", JInt 2)]);
    [reflexivity|reflexivity|by apply list_elem_of_singleton|reflexivity].
Defined.

End CreatingInstance.

(** ** Ids stay unique *)

Section Unique.
Context `{PyRuntime}.

Lemma has_id_omap items id : has_id items id ↔ id ∈ omap index_key items.
Proof. unfold has_id. by rewrite list_elem_of_omap. Qed.

Lemma unique_ids_nil : unique_ids [].
Proof. split; [constructor|]. simpl. apply NoDup_nil. done. Qed.

Lemma unique_ids_cons x l :
  unique_ids (x :: l) ↔
  ∃ k, index_key x = Some k ∧ ¬ has_id l k ∧ unique_ids l.
Proof.
  unfold unique_ids. rewrite Forall_cons. simpl. split.
  - intros [[[k Hk] Hall] Hnd]. rewrite Hk in Hnd. simpl in Hnd.
    apply NoDup_cons in Hnd as [Hnot Hnd]. exists k. by rewrite has_id_omap.
  - intros (k & Hk & Hno & Hall & Hnd). rewrite Hk. simpl.
    split; [split; [eauto|done]|]. apply NoDup_cons. by rewrite <- has_id_omap.
Qed.

(** Uniqueness is a property of the ids alone. *)
Lemma unique_ids_keys l l' :
  map index_key l' = map index_key l → unique_ids l → unique_ids l'.
Proof.
  revert l'. induction l as [|x l IH]; intros [|x' l']; simpl; try done.
  intros [= Hx Hl]. rewrite !unique_ids_cons. intros (k & Hk & Hno & Hu).
  exists k. split; [congruence|]. split; [|by apply IH].
  rewrite has_id_omap in *. intros Hin. apply Hno.
  apply list_elem_of_omap in Hin as (y & Hy & Hky).
  apply (list_elem_of_fmap_2 index_key) in Hy.
  change (index_key y ∈ map index_key l') in Hy. rewrite Hl, Hky in Hy.
  apply list_elem_of_fmap in Hy as (z & Hz & Hzl).
  apply list_elem_of_omap. eauto.
Qed.

Lemma unique_ids_snoc l r id :
  unique_ids l → index_key r = Some id → ¬ has_id l id → unique_ids (l ++ [r]).
Proof.
  intros [Hall Hnd] Hk Hno. split.
  - apply Forall_app. split; [done|]. constructor; [eauto|constructor].
  - rewrite omap_app. simpl. rewrite Hk. simpl. apply NoDup_app.
    split; [done|]. split; [|apply NoDup_singleton].
    intros x Hx Hx'. apply list_elem_of_singleton in Hx' as ->.
    by apply Hno, has_id_omap.
Qed.

Lemma unique_ids_filter P l : unique_ids l → unique_ids (List.filter P l).
Proof.
  induction l as [|x l IH]; simpl; [done|].
  rewrite unique_ids_cons. intros (k & Hk & Hno & Hu).
  destruct (P x); [|by apply IH].
  apply unique_ids_cons. exists k. split; [done|]. split; [|by apply IH].
  intros (y & Hy & Hky). apply Hno. exists y. split; [|done].
  apply list_elem_of_In, filter_In in Hy as [Hy _]. by apply list_elem_of_In.
Qed.

Lemma index_key_pruned pid o : index_key (pruned pid o) = index_key o.
Proof.
  unfold pruned. destruct (order_items o); [|done]. by apply index_key_record_set.
Qed.

Lemma map_index_key_alter (g : json → json) j l :
  (∀ r, index_key (g r) = index_key r) →
  map index_key (alter g j l) = map index_key l.
Proof.
  intros Hg. revert j. induction l as [|x l IH]; intros [|j]; simpl; try done.
  - by rewrite Hg.
  - f_equal. apply IH.
Qed.

Lemma map_index_key_assign k ov j l :
  k ≠ "id" → map index_key (assign_str k ov j l) = map index_key l.
Proof.
  intros Hk. destruct ov; [|done]. apply map_index_key_alter.
  intros r. by apply index_key_record_set.
Qed.

(** When every record has an id of its own, the write-back loop finds the
    record where the index found it, and changes nothing. *)
Lemma write_back_unique l id j r l' :
  unique_ids l → last_index id l = Some j → l !! j = Some r →
  write_back l id r = Ok l' → l' = l.
Proof.
  revert j l'. induction l as [|x l IH]; intros j l'; simpl; [done|].
  rewrite unique_ids_cons. intros (k & Hk & Hno & Hu).
  rewrite (index_key_get_str _ _ Hk). simpl.
  destruct (String.eqb_spec k id) as [->|Hne].
  - apply last_index_None in Hno. rewrite Hno, decide_True by done.
    by intros [= <-] [= <-] [= <-].
  - destruct (last_index id l) as [j0|] eqn:E.
    + intros [= <-] Hr. simpl in Hr.
      destruct (write_back l id r) as [rest'|] eqn:Ew; simpl; [|done].
      intros [= <-]. by rewrite (IH j0 rest' Hu eq_refl Hr eq_refl).
    + rewrite decide_False by congruence. done.
Qed.

Lemma stored_ensure c f : stored c (ensure_db_exists f) = stored c f.
Proof. unfold stored. by rewrite load_db_idem. Qed.

Lemma store_unique_unchanged f f' :
  f' = f ∨ f' = ensure_db_exists f → store_unique f → store_unique f'.
Proof. intros [->| ->]; [done|]. unfold store_unique. by rewrite !stored_ensure. Qed.

Lemma store_unique_saved data products orders :
  is_document data →
  unique_ids products → unique_ids orders →
  get_list data "products" = products → get_list data "orders" = orders →
  store_unique (save_db (JDict data)).
Proof.
  intros Hd Hp Ho <- <-. unfold store_unique, stored.
  by rewrite load_db_saved.
Qed.

Lemma create_unique c e raw f out f' :
  create c e raw f = (out, f') → store_unique f → store_unique f'.
Proof.
  intros E Hu.
  assert (f' = f ∨ f' = ensure_db_exists f ∨ ∃ r, out = Resp 201 r) as Hcases.
  { destruct c; cbn [create] in E.
    - unfold create_product in E.
      destruct (negb (py_truthy _)); [left; congruence|].
      destruct (is_none _); [left; congruence|].
      destruct (py_float _); [|left; congruence].
      destruct (load_db f) as [[data|ex] f1] eqn:El; apply load_db_file in El as ->;
        [|right; left; congruence].
      destruct (index_by_id _ !! _); [right; left; congruence|].
      right; right. injection E as <- <-. eauto.
    - unfold create_order in E.
      destruct (negb (py_truthy _)); [left; congruence|].
      destruct (nonempty_list _); [|left; congruence].
      destruct (load_db f) as [[data|ex] f1] eqn:El; apply load_db_file in El as ->;
        [|right; left; congruence].
      destruct (validate_items _ _); [right; left; congruence|].
      destruct (index_by_id _ !! _); [right; left; congruence|].
      right; right. injection E as <- <-. eauto. }
  destruct Hcases as [Hf|[Hf|[r ->]]]; [by eapply store_unique_unchanged; eauto..|].
  destruct (create_effect _ _ _ _ _ _ E) as (data & id & El & -> & Hk & Hno).
  pose proof (load_db_ok _ _ _ El) as (Hd & _).
  destruct Hu as [Hp Ho].
  rewrite (stored_loaded Products _ _ _ El) in Hp.
  rewrite (stored_loaded Orders _ _ _ El) in Ho. cbn [collection_key] in Hp, Ho.
  assert (¬ has_id (get_list data (collection_key c)) id) as Hfresh.
  { rewrite <- index_by_id_is_Some, Hno. by intros [? ?]. }
  destruct c; cbn [collection_key] in *;
    eapply store_unique_saved;
    try (by apply set_list_document);
    rewrite ?get_list_set_eq, ?get_list_set_ne by done;
    try reflexivity; try done; by eapply unique_ids_snoc.
Qed.

Lemma delete_unique c id f out f' :
  delete c id f = (out, f') → store_unique f → store_unique f'.
Proof.
  intros E [Hp Ho]. destruct c; cbn [delete] in E.
  - unfold delete_product in E.
    destruct (load_db f) as [[data|ex] f1] eqn:El;
      [|apply load_db_file in El as ->; injection E as <- <-;
        by apply (store_unique_unchanged f); [right|]].
    pose proof (load_db_ok _ _ _ El) as (Hd & -> & _).
    rewrite (stored_loaded Products _ _ _ El) in Hp.
    rewrite (stored_loaded Orders _ _ _ El) in Ho. cbn [collection_key] in Hp, Ho.
    assert (store_unique (ensure_db_exists f)) as Hsame.
    { apply (store_unique_unchanged f); [by right|]. split.
      - by rewrite (stored_loaded Products _ _ _ El).
      - by rewrite (stored_loaded Orders _ _ _ El). }
    destruct (drop_matching "id" id _) as [kept|] eqn:Ek; [|by injection E as <- <-].
    destruct (_ =? _)%nat; [by injection E as <- <-|].
    destruct (prune_orders id _) as [orders'|] eqn:Eo; [|by injection E as <- <-].
    injection E as <- <-.
    eapply store_unique_saved;
      [by apply set_list_document, set_list_document| | | |].
    3: { by rewrite get_list_set_ne, get_list_set_eq by done. }
    3: { by rewrite get_list_set_eq. }
    + rewrite (drop_matching_filter _ _ _ _ Ek). by apply unique_ids_filter.
    + rewrite (prune_orders_map _ _ _ Eo).
      apply (unique_ids_keys (get_list data "orders")); [|done].
      rewrite map_map. apply map_ext. intros o. apply index_key_pruned.
  - unfold delete_order in E.
    destruct (load_db f) as [[data|ex] f1] eqn:El;
      [|apply load_db_file in El as ->; injection E as <- <-;
        by apply (store_unique_unchanged f); [right|]].
    pose proof (load_db_ok _ _ _ El) as (Hd & -> & _).
    rewrite (stored_loaded Products _ _ _ El) in Hp.
    rewrite (stored_loaded Orders _ _ _ El) in Ho. cbn [collection_key] in Hp, Ho.
    assert (store_unique (ensure_db_exists f)) as Hsame.
    { apply (store_unique_unchanged f); [by right|]. split.
      - by rewrite (stored_loaded Products _ _ _ El).
      - by rewrite (stored_loaded Orders _ _ _ El). }
    destruct (drop_matching "id" id _) as [kept|] eqn:Ek; [|by injection E as <- <-].
    destruct (_ =? _)%nat; [by injection E as <- <-|].
    injection E as <- <-.
    eapply store_unique_saved; [by apply set_list_document| | | |].
    3: { by rewrite get_list_set_ne by done. }
    3: { by rewrite get_list_set_eq. }
    + done.
    + rewrite (drop_matching_filter _ _ _ _ Ek). by apply unique_ids_filter.
Qed.

(** The tail of both update handlers on a collection with unique ids. *)
Lemma update_tail_unique c id j data records f1 out f' :
  is_document data →
  unique_ids (get_list data (collection_key (other c))) →
  unique_ids records → last_index id records = Some j →
  store_unique f1 →
  match write_back records id (deref records j) with
  | Raise ex => (Crash ex, f1)
  | Ok records' =>
      (Resp 200 (deref records j),
       save_db (JDict (set_list data (collection_key c) records')))
  end = (out, f') →
  store_unique f'.
Proof.
  intros Hd Hother Hu Hj Hsame.
  destruct (last_index_Some _ _ _ Hj) as (r & Hr & _).
  unfold deref. rewrite Hr. simpl.
  destruct (write_back records id r) as [records'|] eqn:Ew; [|by intros [= <- <-]].
  intros [= <- <-]. rewrite (write_back_unique _ _ _ _ _ Hu Hj Hr Ew).
  destruct c; cbn [collection_key other] in *.
  - eapply store_unique_saved; [by apply set_list_document|exact Hu|exact Hother| |].
    + by rewrite get_list_set_eq.
    + by rewrite get_list_set_ne by done.
  - eapply store_unique_saved; [by apply set_list_document|exact Hother|exact Hu| |].
    + by rewrite get_list_set_ne by done.
    + by rewrite get_list_set_eq.
Qed.

Lemma update_product_unique pid raw f out f' :
  update_product pid raw f = (out, f') → store_unique f → store_unique f'.
Proof.
  rewrite update_product_eq. intros E [Hp Ho].
  destruct (load_db f) as [[data|ex] f1] eqn:El;
    [|apply load_db_file in El as ->; injection E as <- <-;
      by apply (store_unique_unchanged f); [right|]].
  pose proof (load_db_ok _ _ _ El) as (Hd & -> & _).
  rewrite (stored_loaded Products _ _ _ El) in Hp.
  rewrite (stored_loaded Orders _ _ _ El) in Ho. cbn [collection_key] in Hp, Ho.
  assert (store_unique (ensure_db_exists f)) as Hsame.
  { apply (store_unique_unchanged f); [by right|]. split.
    - by rewrite (stored_loaded Products _ _ _ El).
    - by rewrite (stored_loaded Orders _ _ _ El). }
  destruct (index_by_id _ !! pid) as [j|] eqn:Ej; [|by injection E as <- <-].
  rewrite index_by_id_lookup in Ej. cbv zeta in E.
  pose proof (map_index_key_assign "name" (dict_get (get_body raw) "name") j
                (get_list data "products") ltac:(done)) as Hkeys1.
  assert (last_index pid (assign_str "name" (dict_get (get_body raw) "name") j
                            (get_list data "products")) = Some j) as Hj1.
  { destruct (dict_get (get_body raw) "name"); [|done]. cbn [assign_str].
    rewrite last_index_alter; [done|]. intros r. by apply index_key_record_set. }
  set (products1 := assign_str "name" _ j _) in *. clearbody products1.
  destruct (dict_get (get_body raw) "price") as [v|].
  - destruct (py_float v) as [x|]; [|by injection E as <- <-].
    eapply (update_tail_unique Products); [done|exact Ho| | |exact Hsame|exact E].
    + apply (unique_ids_keys (get_list data "products")); [|done].
      rewrite map_index_key_alter; [done|]. intros r. by apply index_key_record_set.
    + rewrite last_index_alter; [done|]. intros r. by apply index_key_record_set.
  - eapply (update_tail_unique Products); [done|exact Ho| |exact Hj1|exact Hsame|exact E].
    by apply (unique_ids_keys (get_list data "products")).
Qed.

Lemma update_order_unique oid raw f out f' :
  update_order oid raw f = (out, f') → store_unique f → store_unique f'.
Proof.
  rewrite update_order_eq. intros E [Hp Ho].
  destruct (load_db f) as [[data|ex] f1] eqn:El;
    [|apply load_db_file in El as ->; injection E as <- <-;
      by apply (store_unique_unchanged f); [right|]].
  pose proof (load_db_ok _ _ _ El) as (Hd & -> & _).
  rewrite (stored_loaded Products _ _ _ El) in Hp.
  rewrite (stored_loaded Orders _ _ _ El) in Ho. cbn [collection_key] in Hp, Ho.
  assert (store_unique (ensure_db_exists f)) as Hsame.
  { apply (store_unique_unchanged f); [by right|]. split.
    - by rewrite (stored_loaded Products _ _ _ El).
    - by rewrite (stored_loaded Orders _ _ _ El). }
  destruct (index_by_id _ !! oid) as [j|] eqn:Ej; [|by injection E as <- <-].
  rewrite index_by_id_lookup in Ej. cbv zeta in E. unfold finish_update_order in E.
  assert (map index_key
            (assign_str "customer" (dict_get (get_body raw) "customer") j
               (assign_str "status" (dict_get (get_body raw) "status") j
                  (get_list data "orders"))) = map index_key (get_list data "orders"))
    as Hkeys.
  { by rewrite !map_index_key_assign. }
  assert (last_index oid
            (assign_str "customer" (dict_get (get_body raw) "customer") j
               (assign_str "status" (dict_get (get_body raw) "status") j
                  (get_list data "orders"))) = Some j) as Hj2.
  { destruct (dict_get (get_body raw) "customer"), (dict_get (get_body raw) "status");
      cbn [assign_str]; rewrite ?last_index_alter; try done;
      intros r; by apply index_key_record_set. }
  set (orders2 := assign_str "customer" _ j _) in *. clearbody orders2.
  destruct (dict_get (get_body raw) "items") as [v|].
  - destruct (nonempty_list v); [|by injection E as <- <-].
    destruct (validate_items _ _); [by injection E as <- <-|].
    eapply (update_tail_unique Orders); [done|exact Hp| | |exact Hsame|exact E].
    + apply (unique_ids_keys (get_list data "orders")); [|done].
      rewrite map_index_key_alter; [done|]. intros r. by apply index_key_record_set.
    + rewrite last_index_alter; [done|]. intros r. by apply index_key_record_set.
  - eapply (update_tail_unique Orders); [done|exact Hp| |exact Hj2|exact Hsame|exact E].
    by apply (unique_ids_keys (get_list data "orders")).
Qed.

(** One write request keeps the ids unique. *)
Lemma write_keeps_ids_unique op f : store_unique f → store_unique (run_write op f).2.
Proof.
  intros Hu. destruct (run_write op f) as [out f'] eqn:E. simpl.
  destruct op; simpl in E.
  - by apply (create_unique Products _ _ _ _ _ E).
  - by apply (update_product_unique _ _ _ _ _ E).
  - by apply (delete_unique Products _ _ _ _ E).
  - by apply (create_unique Orders _ _ _ _ _ E).
  - by apply (update_order_unique _ _ _ _ _ E).
  - by apply (delete_unique Orders _ _ _ _ E).
Qed.

(** X14. No sequence of write requests makes two records of a collection
    share an id: if, in each collection of the file, every record has an id
    and no two records have the same, this is still so after any sequence of
    creates, updates and deletes, whatever their answers.  The absent file is
    such a file. *)
Theorem ids_stay_unique ops f :
  store_unique f → store_unique (run_writes ops f) ∧ store_unique Missing.
Proof.
  intros Hu. split.
  - revert f Hu. induction ops as [|op rest IH]; intros f Hu; simpl; [done|].
    by apply IH, write_keeps_ids_unique.
  - split; apply unique_ids_nil.
Qed.

End Unique.

Section UniqueInstance.
#[local] Existing Instance AsciiRuntime.runtime.

(** The notebook is created twice with the same random draw, then ordered,
    then deleted under an id it does not have. *)
Lemma ids_stay_unique_witness :
  let ops := [CreateProduct Shop.clock Shop.notebook_request;
              CreateProduct Shop.clock Shop.notebook_request;
              CreateOrder Shop.clock (Shop.order_request [Shop.line "p-9f3b6c1e" 1]);
              DeleteProduct "p1"] in
  store_unique Missing ∧
  run_writes ops Missing =
    Stored (Shop.document [Shop.notebook "p-9f3b6c1e"]
              [Shop.order "o-9f3b6c1e" [Shop.line "p-9f3b6c1e" 1]]) ∧
  store_unique (run_writes ops Missing).
Proof.
  intros ops.
  assert (store_unique Missing) as Hu by (split; apply unique_ids_nil).
  split; [exact Hu|]. split; [reflexivity|].
  exact (proj1 (ids_stay_unique ops Missing Hu)).
Defined.

End UniqueInstance.

(** ** The item loop, both ways *)

Section ItemLoopDecides.
Context `{PyRuntime}.

(** X15. The item loop accepts a list exactly when every item of it is valid
    against the products, and what it then returns is the list of the normal
    forms of the items, in order. *)
Theorem validate_items_decides products items :
  ((∃ normalized, validate_items (index_by_id products) items = Accepted normalized) ↔
   Forall (item_valid products) items) ∧
  (∀ normalized, validate_items (index_by_id products) items = Accepted normalized →
                 normalized = map normalized_item items).
Proof.
  split; [split|].
  - intros [normalized Hv]. by destruct (validate_items_accepted _ _ _ Hv).
  - intros Hall. eexists. by apply validate_items_accepts.
  - intros normalized Hv. by destruct (validate_items_accepted _ _ _ Hv).
Qed.

End ItemLoopDecides.

(** ** Updating among duplicates *)

Section Duplicates.
Context `{PyRuntime}.

(** The write-back loop replaces the first entry that carries the id. *)
Lemma write_back_first l id r l' i p :
  write_back l id r = Ok l' →
  l !! i = Some p → carries_id id p →
  (∀ i' p', (i' < i)%nat → l !! i' = Some p' → ¬ carries_id id p') →
  l' !! i = Some r.
Proof.
  unfold carries_id. revert l' i.
  induction l as [|x rest IH]; intros l' i; simpl; [done|].
  destruct (get_str "id" x) as [s|] eqn:Es; simpl; [|done].
  destruct (String.eqb_spec s id) as [->|Hne].
  - intros [= <-]. destruct i as [|i]; simpl; [done|].
    intros _ _ Hfirst. destruct (Hfirst 0%nat x); [lia|done|done].
  - destruct (write_back rest id r) as [rest'|] eqn:Ew; simpl; [|done].
    intros [= <-]. destruct i as [|i]; simpl.
    + intros [= <-] Hp. congruence.
    + intros Hi Hp Hfirst. apply (IH rest' i eq_refl Hi Hp).
      intros i' p' Hlt Hi'. apply (Hfirst (S i') p'); [lia|done].
Qed.

Lemma get_str_record_set k v r : k ≠ "id" → get_str "id" (record_set k v r) = get_str "id" r.
Proof.
  intros Hk. destruct r; simpl; try done. unfold dict_get_or.
  by rewrite dict_get_set_ne.
Qed.

Lemma carries_id_alter id k v j (l : list json) i p :
  k ≠ "id" →
  alter (record_set k v) j l !! i = Some p →
  ∃ p0, l !! i = Some p0 ∧ (carries_id id p ↔ carries_id id p0).
Proof.
  intros Hk. rewrite list_lookup_alter. case_decide as Hij.
  - subst. destruct (l !! i) as [p0|]; simpl; [|done]. intros [= <-].
    exists p0. split; [done|]. unfold carries_id. by rewrite get_str_record_set.
  - intros Hp. by exists p.
Qed.

Lemma carries_id_assign id k ov j (l : list json) i p :
  k ≠ "id" →
  assign_str k ov j l !! i = Some p →
  ∃ p0, l !! i = Some p0 ∧ (carries_id id p ↔ carries_id id p0).
Proof.
  intros Hk. destruct ov; [by apply carries_id_alter|].
  intros Hp. by exists p.
Qed.

(** X16. [PUT /orders/<oid>] stores the updated record in the place of the
    first order that carries [oid].  When several orders carry the id (the
    index holds the last of them), the first of them is therefore replaced by
    a copy of the updated last one. *)
Theorem update_order_overwrites_first oid raw f r' f' i o :
  update_order oid raw f = (Resp 200 r', f') →
  stored Orders f !! i = Some o → carries_id oid o →
  (∀ i' o', (i' < i)%nat → stored Orders f !! i' = Some o' → ¬ carries_id oid o') →
  stored Orders f' !! i = Some r'.
Proof.
  intros E Hi Ho Hfirst. rewrite update_order_eq in E.
  unfold not_found, bad_request in E.
  destruct (load_db f) as [[data|ex] f1] eqn:El; [|discriminate E].
  destruct (index_by_id (get_list data "orders") !! oid) as [j|] eqn:Ej;
    [|discriminate E].
  pose proof (load_db_ok _ _ _ El) as (Hd & _).
  rewrite (stored_loaded Orders _ _ _ El) in *. cbn [collection_key] in *.
  pose proof Ej as Hj. rewrite index_by_id_lookup in Hj.
  destruct (last_index_Some _ _ _ Hj) as (r & Hr & Hk).
  assert (∃ d, r = JDict d) as [d ->] by (destruct r; try discriminate Hk; eauto).
  cbv zeta in E. unfold finish_update_order in E.
  destruct (assign_str_spec oid j _ d "status" (dict_get (get_body raw) "status")
              ltac:(done) Hj Hr) as (d1 & Hj1 & Hr1 & _).
  destruct (assign_str_spec oid j _ d1 "customer" (dict_get (get_body raw) "customer")
              ltac:(done) Hj1 Hr1) as (d2 & Hj2 & Hr2 & _).
  assert (∀ i p, assign_str "customer" (dict_get (get_body raw) "customer") j
                   (assign_str "status" (dict_get (get_body raw) "status") j
                      (get_list data "orders")) !! i = Some p →
            ∃ p0, get_list data "orders" !! i = Some p0 ∧
                  (carries_id oid p ↔ carries_id oid p0)) as Hsame.
  { intros i0 p Hp.
    destruct (carries_id_assign oid "customer" _ _ _ _ _ ltac:(done) Hp)
      as (p1 & Hp1 & Hiff1).
    destruct (carries_id_assign oid "status" _ _ _ _ _ ltac:(done) Hp1)
      as (p0 & Hp0 & Hiff0).
    exists p0. split; [done|]. by rewrite Hiff1. }
  assert (∀ i p0, get_list data "orders" !! i = Some p0 →
            ∃ p, assign_str "customer" (dict_get (get_body raw) "customer") j
                   (assign_str "status" (dict_get (get_body raw) "status") j
                      (get_list data "orders")) !! i = Some p) as Hthere.
  { intros i0 p0 Hp0. apply lookup_lt_is_Some. rewrite !assign_str_length.
    by eapply lookup_lt_Some. }
  set (orders2 := assign_str "customer" _ j _) in *. clearbody orders2.
  destruct (dict_get (get_body raw) "items") as [v|] eqn:Ei.
  - destruct (nonempty_list v) as [items|]; [|discriminate E].
    destruct (validate_items _ items) as [msg|new_items]; [discriminate E|].
    destruct (assign_through_index oid j _ d2 "items" (JList new_items)
                ltac:(done) Hj2 Hr2) as [Hj3 Hr3].
    destruct (update_tail_stored Orders _ _ _ _ _ _ _ _ Hd Hj3 Hr3 E)
      as (-> & Hget & records' & Hw & ->).
    unfold stored. rewrite load_db_saved_list by done. cbn [collection_key].
    rewrite get_list_set_eq.
    destruct (Hthere _ _ Hi) as (p2 & Hp2).
    assert (∃ p3, alter (record_set "items" (JList new_items)) j orders2 !! i = Some p3)
      as [p3 Hp3].
    { apply lookup_lt_is_Some. rewrite length_alter. by eapply lookup_lt_Some. }
    apply (write_back_first _ _ _ _ _ _ Hw Hp3).
    + destruct (carries_id_alter oid "items" _ _ _ _ _ ltac:(done) Hp3) as (q & Hq & Hiff).
      destruct (Hsame _ _ Hq) as (q0 & Hq0 & Hiff0). simplify_eq.
      by rewrite Hiff, Hiff0.
    + intros i' p' Hlt Hp'.
      destruct (carries_id_alter oid "items" _ _ _ _ _ ltac:(done) Hp') as (q & Hq & Hiff).
      destruct (Hsame _ _ Hq) as (q0 & Hq0 & Hiff0).
      rewrite Hiff, Hiff0. by eapply Hfirst.
  - destruct (update_tail_stored Orders _ _ _ _ _ _ _ _ Hd Hj2 Hr2 E)
      as (-> & Hget & records' & Hw & ->).
    unfold stored. rewrite load_db_saved_list by done. cbn [collection_key].
    rewrite get_list_set_eq.
    destruct (Hthere _ _ Hi) as (p2 & Hp2).
    apply (write_back_first _ _ _ _ _ _ Hw Hp2).
    + destruct (Hsame _ _ Hp2) as (q0 & Hq0 & Hiff0). simplify_eq. by rewrite Hiff0.
    + intros i' p' Hlt Hp'.
      destruct (Hsame _ _ Hp') as (q0 & Hq0 & Hiff0).
      rewrite Hiff0. by eapply Hfirst.
Qed.

End Duplicates.

Section DuplicatesInstance.
#[local] Existing Instance AsciiRuntime.runtime.

(** Two orders with the id [o1] in a file edited by hand; the update reaches
    the second and overwrites the first. *)
Lemma update_order_overwrites_first_witness :
  let first := Shop.order "o1" [Shop.line "p1" 2] in
  let second := Shop.order "o1" [Shop.line "p1" 5] in
  let f := Stored (Shop.document [Shop.notebook "p1"] [first; second]) in
  let r' := JDict [("id", JStr "o1"); ("customer", JStr "Fatima");
                   ("items", JList [Shop.line "p1" 5]); ("status", JStr "PAID");
                   ("createdAt", JStr "2024-05-01T10:00:00Z")] in
  let f' := Stored (Shop.document [Shop.notebook "p1"] [r'; r']) in
  update_order "o1" (JDict [("status", JStr "PAID")]) f = (Resp 200 r', f') ∧
  stored Orders f !! 0%nat = Some first ∧
  carries_id "o1" first ∧
  stored Orders f' !! 0%nat = Some r'.
Proof.
  intros first second f r' f'.
  split; [reflexivity|]. split; [reflexivity|]. split; [reflexivity|].
  apply (update_order_overwrites_first "o1" (JDict [("status", JStr "PAID")]) f r' f'
           0%nat first); [reflexivity|reflexivity|reflexivity|].
  intros i' o' Hlt. lia.
Defined.

End DuplicatesInstance.
